(** * Automatic backup scheduling: [server/backup_runner.go] and the
    project store's [FindProject]

    A shallow embedding of the backup runner of the server package and of
    the single-record lookup of the store package, with the properties
    their specification states about them.

    Go values are modelled as follows.
    - [int], [int64]: [Z]; the code only compares, copies and prints them.
    - [string]: [String.string], a sequence of bytes as in Go.
    - [time.Time]: nanoseconds since the Unix epoch, a [Z]; [UTC] changes
      the location of a time and not the instant, and every calendar
      function below is the UTC one.
    - a pair [(value, err)] returned by a call whose value is read only
      when [err == nil]: a sum; the pair returned by
      [FindBackupSettingsMatch], whose list is read whatever [err] is:
      a pair.
    - calls into the services, the clock, the logger, [go] statements and
      [time.Sleep]: events of a program tree, answered by a handler that
      may also make a call panic. *)

From Stdlib Require Import ZArith String Ascii List Lia Bool.
From Stdlib Require Import DecimalString DecimalZ.
From ExtLib Require Import Structures.Monad.
Import ListNotations.
Import MonadNotation.

Open Scope string_scope.
Open Scope Z_scope.
Open Scope monad_scope.

Set Implicit Arguments.

(* ================================================================== *)
(** * Go's standard library, as far as the runner uses it *)
(* ================================================================== *)

(** [fmt.Sprintf("%v", n)] at an integer: the decimal numeral, with a
    minus sign when negative. *)
Definition itoa (z : Z) : string := NilEmpty.string_of_int (Z.to_int z).

Module strings.

(** [strings.Index(s, substr) >= 0]. *)
Fixpoint Contains (s substr : string) : bool :=
  prefix substr s ||
  match s with
  | EmptyString => false
  | String _ s' => Contains s' substr
  end.

(** The scan of [strings.ReplaceAll]: [skip] bytes of a match found
    earlier remain to be dropped; otherwise a match at the head is
    replaced and the scan resumes after it, and a byte that starts no
    match is copied. *)
Fixpoint replaceFrom (skip : nat) (s old new : string) : string :=
  match s with
  | EmptyString => EmptyString
  | String c s' =>
      match skip with
      | S k => replaceFrom k s' old new
      | O =>
          if prefix old s
          then new ++ replaceFrom (String.length old - 1) s' old new
          else String c (replaceFrom 0 s' old new)
      end
  end.

(** [strings.ReplaceAll(s, old, new)] for a non-empty [old]: every
    non-overlapping instance of [old], found from left to right, is
    replaced by [new]. *)
Definition ReplaceAll (s old new : string) : string :=
  replaceFrom 0 s old new.

(** [strings.Join(elems, sep)]. *)
Definition Join (elems : list string) (sep : string) : string :=
  String.concat sep elems.

End strings.

Module time.

(** A [time.Time], in nanoseconds since January 1, 1970 UTC. *)
Definition Time := Z.
(** A [time.Duration], in nanoseconds. *)
Definition Duration := Z.

Definition Second : Duration := 1000000000.
Definition Minute : Duration := 60 * Second.
Definition Hour : Duration := 60 * Minute.

(** Seconds from January 1, year 1 (Go's zero time) to the Unix epoch. *)
Definition unixToInternal : Z := 62135596800.

Definition UTC (t : Time) : Time := t.

(** [t.Truncate(d)]: [t] rounded down to a multiple of [d] since the
    zero time; [t] itself when [d <= 0]. *)
Definition Truncate (t : Time) (d : Duration) : Time :=
  if d <=? 0 then t else t - (t + unixToInternal * Second) mod d.

(** [t.Unix()]: whole seconds since the Unix epoch. *)
Definition Unix (t : Time) : Z := t / Second.

(** [t.Hour()], in [0, 23]. *)
Definition HourOf (t : Time) : Z := (Unix t mod 86400) / 3600.

(** [t.Weekday()], Sunday = 0; January 1, 1970 was a Thursday. *)
Definition Weekday (t : Time) : Z := (Unix t / 86400 + 4) mod 7.

End time.

(* ================================================================== *)
(** * Errors of package [bytebase] *)
(* ================================================================== *)

Module bytebase.

(** The error codes the two files name, and any other code. *)
Inductive Code : Type :=
| ECONFLICT
| ENOTFOUND
| ECode (name : string).

(** A Go [error]: a [*bytebase.Error], or an error known by its message
    only (the result of [fmt.Errorf], or an error of a driver). *)
Inductive error : Type :=
| Error (Code : Code) (Message : string)
| errorString (msg : string).

End bytebase.
Import bytebase.

(* ================================================================== *)
(** * The [api] structures, with the fields the two files read or write *)
(* ================================================================== *)

(** The types [string(...)] converts to a string in [backupCreate] are
    kept as they are. The [Instance] of a composed database and the
    [Environment] of that instance are pointers the runner reads without
    a check; they are taken to be set, as [ComposeDatabaseByFind] returns
    them. *)

Module api.

Inductive BackupStatus := BackupStatusPendingCreate | BackupStatusDone | BackupStatusFailed.
Inductive BackupType := BackupTypeAutomatic | BackupTypeManual.
Inductive BackupStorageBackend := BackupStorageBackendLocal.
Inductive TaskStatus := TaskPending | TaskRunning | TaskDone | TaskFailed.
Inductive TaskType := TaskDatabaseBackup | TaskGeneral.
Inductive RowStatus := Normal | Archived.

Module Environment.
Record t := { ID : Z; Name : string }.
End Environment.

Module Instance.
Record t := { ID : Z; EnvironmentId : Z; Environment : Environment.t }.
End Instance.

Module Database.
Record t := { ID : Z; Name : string; InstanceId : Z; Instance : Instance.t }.
End Database.

Module DatabaseFind.
Record t := { ID : option Z }.
End DatabaseFind.

Module BackupSettingsMatch.
Record t := { Hour : Z; DayOfWeek : Z }.
End BackupSettingsMatch.

(** [Database] is a pointer, nil until the runner fills it in. *)
Module BackupSetting.
Record t := {
  ID : Z;
  DatabaseId : Z;
  Database : option Database.t;
  Hour : Z;
  DayOfWeek : Z;
  PathTemplate : string
}.
End BackupSetting.

Module BackupCreate.
Record t := {
  CreatorId : Z;
  DatabaseId : Z;
  Name : string;
  Status : BackupStatus;
  Type_ : BackupType;
  StorageBackend : BackupStorageBackend;
  Path : string;
  Comment : string
}.
End BackupCreate.

Module Backup.
Record t := {
  ID : Z;
  CreatorId : Z;
  DatabaseId : Z;
  Name : string;
  Status : BackupStatus;
  Type_ : BackupType;
  StorageBackend : BackupStorageBackend;
  Path : string;
  Comment : string
}.
End Backup.

Module PipelineCreate.
Record t := { Name : string; CreatorId : Z }.
End PipelineCreate.

Module Pipeline.
Record t := { ID : Z; Name : string; CreatorId : Z }.
End Pipeline.

Module StageCreate.
Record t := { Name : string; EnvironmentId : Z; PipelineId : Z; CreatorId : Z }.
End StageCreate.

Module Stage.
Record t := { ID : Z; Name : string; EnvironmentId : Z; PipelineId : Z; CreatorId : Z }.
End Stage.

Module TaskCreate.
Record t := {
  Name : string;
  PipelineId : Z;
  StageId : Z;
  InstanceId : Z;
  DatabaseId : option Z;
  Status : TaskStatus;
  Type_ : TaskType;
  Payload : string;
  CreatorId : Z
}.
End TaskCreate.

Module Task.
Record t := {
  ID : Z;
  Name : string;
  PipelineId : Z;
  StageId : Z;
  InstanceId : Z;
  DatabaseId : option Z;
  Status : TaskStatus;
  Type_ : TaskType;
  Payload : string;
  CreatorId : Z
}.
End Task.

Module Project.
Record t := {
  ID : Z;
  RowStatus : RowStatus;
  CreatorId : Z;
  CreatedTs : Z;
  UpdaterId : Z;
  UpdatedTs : Z;
  WorkspaceId : Z;
  Name : string;
  Key : string
}.
End Project.

Module ProjectFind.
Record t := {
  ID : option Z;
  RowStatus : option RowStatus;
  WorkspaceId : option Z;
  PrincipalId : option Z
}.
End ProjectFind.

End api.
Import api.

(** What the sources use without defining it: [bytebase.ErrorCode], the
    [Error()] method of an error, [store.FormatError],
    [api.SYSTEM_BOT_ID], the [encoding/json] rendering of an
    [api.TaskDatabaseBackupPayload] with a given [BackupID], and the [%v]
    rendering of a [*api.ProjectFind]. *)
Class Env : Type := {
  ErrorCode : error -> Code;
  ErrorText : error -> string;
  FormatError : error -> error;
  SYSTEM_BOT_ID : Z;
  MarshalBackupPayload : Z -> string + error;
  SprintFind : ProjectFind.t -> string
}.

(** [fmt.Errorf(prefix + "%v", err)] *)
Definition Errorf `{Env} (prefix : string) (err : error) : error :=
  errorString (prefix ++ ErrorText err).

(* ================================================================== *)
(** * Programs over events *)
(* ================================================================== *)

(** The value a panic carries: an [error], or anything else by its
    [%v] rendering. *)
Inductive PanicValue : Type :=
| PanicError (e : error)
| PanicOther (v : string).

(** A structured log field of [zap]. *)
Inductive Field : Type :=
| zap_Error (e : error)
| zap_Int (key : string) (v : Z)
| zap_String (key v : string).

Section Programs.

(** [E X]: the calls that return an [X] (and may panic);
    [O]: the effects that return nothing and cannot fail. *)
Variable E : Type -> Type.
Variable O : Type.

(** How a call, or a function, ends. *)
Inductive Outcome (A : Type) : Type :=
| Returned (a : A)
| Panicked (r : PanicValue).

Arguments Returned {A} a.
Arguments Panicked {A} r.

(** [Defer body deferred k] is a function with one [defer] statement at
    its head, and what follows its call: [body] runs, then [deferred]
    at the way [body] ended, and [deferred] says how the function
    ends (a deferred function that does not call [recover] returns the
    outcome it was given). *)
Inductive Prog (A : Type) : Type :=
| Ret (a : A)
| Vis (X : Type) (e : E X) (k : X -> Prog A)
| Emit (o : O) (k : Prog A)
| Panic (r : PanicValue)
| Defer (X : Type) (body : Prog X) (deferred : Outcome X -> Prog (Outcome X))
        (k : X -> Prog A).

Arguments Ret {A} a.
Arguments Vis {A X} e k.
Arguments Emit {A} o k.
Arguments Panic {A} r.
Arguments Defer {A X} body deferred k.

Fixpoint bindProg {A B : Type} (p : Prog A) (f : A -> Prog B) : Prog B :=
  match p with
  | Ret a => f a
  | Vis e k => Vis e (fun x => bindProg (k x) f)
  | Emit o k => Emit o (bindProg k f)
  | Panic r => Panic r
  | Defer body deferred k => Defer body deferred (fun x => bindProg (k x) f)
  end.

#[global] Instance Monad_Prog : Monad Prog :=
  {| ret := @Ret; bind := @bindProg |}.

Definition call {X : Type} (e : E X) : Prog X := Vis e (fun x => Ret x).
Definition emit (o : O) : Prog unit := Emit o (Ret tt).

(** What an observer of a run sees, in order. *)
Inductive Obs : Type :=
| Called (X : Type) (e : E X) (r : Outcome X)
| Did (o : O).

Arguments Called {X} e r.

Section Exec.

(** The environment: a state and the answer to each call. *)
Variable W : Type.
Variable handle : forall X : Type, E X -> W -> Outcome X * W.

Fixpoint exec {A : Type} (p : Prog A) (w : W) : Outcome A * W * list Obs :=
  match p with
  | Ret a => (Returned a, w, [])
  | Vis e k =>
      match handle e w with
      | (Returned x, w') =>
          let '(r, w'', tr) := exec (k x) w' in
          (r, w'', Called e (Returned x) :: tr)
      | (Panicked v, w') => (Panicked v, w', [Called e (Panicked v)])
      end
  | Emit o k =>
      let '(r, w', tr) := exec k w in (r, w', Did o :: tr)
  | Panic v => (Panicked v, w, [])
  | Defer body deferred k =>
      let '(rb, wb, trb) := exec body w in
      let '(rd, wd, trd) := exec (deferred rb) wb in
      match rd with
      | Returned (Returned x) =>
          let '(r, w', tr) := exec (k x) wd in (r, w', (trb ++ trd ++ tr)%list)
      | Returned (Panicked v) => (Panicked v, wd, (trb ++ trd)%list)
      | Panicked v => (Panicked v, wd, (trb ++ trd)%list)
      end
  end.

End Exec.

End Programs.

Arguments Ret {E O A} a.
Arguments Vis {E O A X} e k.
Arguments Emit {E O A} o k.
Arguments Panic {E O A} r.
Arguments Defer {E O A X} body deferred k.
Arguments Returned {A} a.
Arguments Panicked {A} r.
Arguments Called {E O X} e r.
Arguments Did {E O} o.
Arguments call {E O X} e.
Arguments emit {E O} o.

(* ================================================================== *)
(** * Package [server]: the backup runner *)
(* ================================================================== *)

Module server.

(** The calls of the runner: the clock and the services of [s.server]. *)
Inductive Call : Type -> Type :=
| time_Now : Call time.Time
| FindBackupSettingsMatch (m : BackupSettingsMatch.t) :
    Call (list BackupSetting.t * option error)
| ComposeDatabaseByFind (find : DatabaseFind.t) : Call (Database.t + error)
| CreateBackup (create : BackupCreate.t) : Call (Backup.t + error)
| CreatePipeline (create : PipelineCreate.t) : Call (Pipeline.t + error)
| CreateStage (create : StageCreate.t) : Call (Stage.t + error)
| CreateTask (create : TaskCreate.t) : Call (Task.t + error).

(** The effects without a result: a line of the logger [s.l], the [go]
    statement that starts a scheduling attempt, and [time.Sleep]. *)
Inductive Effect : Type :=
| l_Error (msg : string) (fields : list Field)
| go_scheduleBackupTask (backupSetting : BackupSetting.t) (uniqueKey : string) (epoch : Z)
| time_Sleep (d : time.Duration).

Definition M := Prog Call Effect.

(** Reading a field through a nil pointer. *)
Definition nilDereference : PanicValue :=
  PanicError (errorString "runtime error: invalid memory address or nil pointer dereference").

Section Runner.

Context {env : Env}.

(** [fmt.Sprintf("auto-backup-%s-%v", uniqueKey, backupSetting.DatabaseId)] *)
Definition backupKey (uniqueKey : string) (databaseId : Z) : string :=
  "auto-backup-" ++ uniqueKey ++ "-" ++ itoa databaseId.

(** [fmt.Sprintf("%s-%s-%v.sql", ...Environment.Name, ...Database.Name, epoch)] *)
Definition defaultPath (environmentName databaseName : string) (epoch : Z) : string :=
  environmentName ++ "-" ++ databaseName ++ "-" ++ itoa epoch ++ ".sql".

(** The [path] of [scheduleBackupTask] once the [if] has run. *)
Definition backupPath (backupSetting : BackupSetting.t) (database : Database.t)
           (epoch : Z) : string :=
  let path :=
    defaultPath (Environment.Name (Instance.Environment (Database.Instance database)))
                (Database.Name database) epoch in
  if negb (BackupSetting.PathTemplate backupSetting =? "")%string
  then strings.ReplaceAll (BackupSetting.PathTemplate backupSetting) "{{TIME}}" (itoa epoch)
  else path.

(** [fmt.Sprintf("Automatic backup for database %s at %v", ...Database.Name, epoch)] *)
Definition backupComment (database : Database.t) (epoch : Z) : string :=
  "Automatic backup for database " ++ Database.Name database ++ " at " ++ itoa epoch.

(** The [backupCreate] of [scheduleBackupTask]. *)
Definition backupCreateOf (backupSetting : BackupSetting.t) (database : Database.t)
           (uniqueKey : string) (epoch : Z) : BackupCreate.t :=
  {| BackupCreate.CreatorId := SYSTEM_BOT_ID;
     BackupCreate.DatabaseId := BackupSetting.DatabaseId backupSetting;
     BackupCreate.Name := backupKey uniqueKey (BackupSetting.DatabaseId backupSetting);
     BackupCreate.Status := BackupStatusPendingCreate;
     BackupCreate.Type_ := BackupTypeAutomatic;
     BackupCreate.StorageBackend := BackupStorageBackendLocal;
     BackupCreate.Path := backupPath backupSetting database epoch;
     BackupCreate.Comment := backupComment database epoch |}.

(** The [api.PipelineCreate], [api.StageCreate] and [api.TaskCreate] of
    [scheduleBackupTask], by the values they are built from. *)
Definition pipelineCreateOf (key : string) : PipelineCreate.t :=
  {| PipelineCreate.Name := key; PipelineCreate.CreatorId := SYSTEM_BOT_ID |}.

Definition stageCreateOf (key : string) (database : Database.t)
           (createdPipeline : Pipeline.t) : StageCreate.t :=
  {| StageCreate.Name := key;
     StageCreate.EnvironmentId := Instance.EnvironmentId (Database.Instance database);
     StageCreate.PipelineId := Pipeline.ID createdPipeline;
     StageCreate.CreatorId := SYSTEM_BOT_ID |}.

Definition taskCreateOf (key : string) (database : Database.t)
           (createdPipeline : Pipeline.t) (createdStage : Stage.t)
           (bytes : string) : TaskCreate.t :=
  {| TaskCreate.Name := key;
     TaskCreate.PipelineId := Pipeline.ID createdPipeline;
     TaskCreate.StageId := Stage.ID createdStage;
     TaskCreate.InstanceId := Database.InstanceId database;
     TaskCreate.DatabaseId := Some (Database.ID database);
     TaskCreate.Status := TaskPending;
     TaskCreate.Type_ := TaskDatabaseBackup;
     TaskCreate.Payload := bytes;
     TaskCreate.CreatorId := SYSTEM_BOT_ID |}.

(** [func (s *BackupRunner) scheduleBackupTask(backupSetting, uniqueKey, epoch) error];
    [None] is the nil error. *)
Definition scheduleBackupTask (backupSetting : BackupSetting.t) (uniqueKey : string)
           (epoch : Z) : M (option error) :=
  let key := backupKey uniqueKey (BackupSetting.DatabaseId backupSetting) in
  match BackupSetting.Database backupSetting with
  | None => Panic nilDereference
  | Some database =>
      let backupCreate := backupCreateOf backupSetting database uniqueKey epoch in
      r <- call (CreateBackup backupCreate) ;;
      match r with
      | inr err =>
          match ErrorCode err with
          | ECONFLICT =>
              (* Automatic backup already exists. *)
              ret None
          | _ => ret (Some (Errorf "failed to create backup: " err))
          end
      | inl backup =>
          match MarshalBackupPayload (Backup.ID backup) with
          | inr err => ret (Some (Errorf "failed to create task payload: " err))
          | inl bytes =>
              r <- call (CreatePipeline
                           {| PipelineCreate.Name := key;
                              PipelineCreate.CreatorId := BackupCreate.CreatorId backupCreate |}) ;;
              match r with
              | inr err => ret (Some (Errorf "failed to create pipeline: " err))
              | inl createdPipeline =>
                  r <- call (CreateStage
                               {| StageCreate.Name := key;
                                  StageCreate.EnvironmentId :=
                                    Instance.EnvironmentId (Database.Instance database);
                                  StageCreate.PipelineId := Pipeline.ID createdPipeline;
                                  StageCreate.CreatorId := BackupCreate.CreatorId backupCreate |}) ;;
                  match r with
                  | inr err => ret (Some (Errorf "failed to create stage: " err))
                  | inl createdStage =>
                      r <- call (CreateTask
                                   {| TaskCreate.Name := key;
                                      TaskCreate.PipelineId := Pipeline.ID createdPipeline;
                                      TaskCreate.StageId := Stage.ID createdStage;
                                      TaskCreate.InstanceId := Database.InstanceId database;
                                      TaskCreate.DatabaseId := Some (Database.ID database);
                                      TaskCreate.Status := TaskPending;
                                      TaskCreate.Type_ := TaskDatabaseBackup;
                                      TaskCreate.Payload := bytes;
                                      TaskCreate.CreatorId := BackupCreate.CreatorId backupCreate |}) ;;
                      match r with
                      | inr err => ret (Some (Errorf "failed to create task: " err))
                      | inl _ => ret None
                      end
                  end
              end
          end
      end
  end.

(** The function a [go_scheduleBackupTask] effect starts. *)
Definition scheduleBackupTaskGoroutine (backupSetting : BackupSetting.t)
           (uniqueKey : string) (epoch : Z) : M unit :=
  err <- scheduleBackupTask backupSetting uniqueKey epoch ;;
  match err with
  | Some err =>
      emit (l_Error "Failed to create automatic backup for database"
              [zap_Int "id" (BackupSetting.ID backupSetting);
               zap_String "databaseID" (itoa (BackupSetting.DatabaseId backupSetting));
               zap_String "error" (ErrorText err)])
  | None => ret tt
  end.

(** The time bucket of a tick: [time.Now().UTC().Truncate(time.Hour)]. *)
Definition bucketOf (now : time.Time) : time.Time :=
  time.Truncate (time.UTC now) time.Hour.

(** The [match] of a tick. *)
Definition matchOf (t : time.Time) : BackupSettingsMatch.t :=
  {| BackupSettingsMatch.Hour := time.HourOf t;
     BackupSettingsMatch.DayOfWeek := time.Weekday t |}.

(** The [databaseFind] of a match, and the line logged when its
    resolution fails. *)
Definition findOf (backupSetting : BackupSetting.t) : DatabaseFind.t :=
  {| DatabaseFind.ID := Some (BackupSetting.DatabaseId backupSetting) |}.

Definition failedToGetDatabase (backupSetting : BackupSetting.t) (err : error) : Effect :=
  l_Error "Failed to get database for backup setting"
    [zap_Int "id" (BackupSetting.ID backupSetting);
     zap_String "databaseID" (itoa (BackupSetting.DatabaseId backupSetting));
     zap_String "error" (ErrorText err)].

(** The body of [for _, backupSetting := range list]. *)
Definition forBackupSetting (uniqueKey : string) (epoch : Z)
           (backupSetting : BackupSetting.t) : M unit :=
  let databaseFind :=
    {| DatabaseFind.ID := Some (BackupSetting.DatabaseId backupSetting) |} in
  r <- call (ComposeDatabaseByFind databaseFind) ;;
  match r with
  | inr err =>
      (* continue *)
      emit (l_Error "Failed to get database for backup setting"
              [zap_Int "id" (BackupSetting.ID backupSetting);
               zap_String "databaseID" (itoa (BackupSetting.DatabaseId backupSetting));
               zap_String "error" (ErrorText err)])
  | inl database =>
      let backupSetting :=
        {| BackupSetting.ID := BackupSetting.ID backupSetting;
           BackupSetting.DatabaseId := BackupSetting.DatabaseId backupSetting;
           BackupSetting.Database := Some database;
           BackupSetting.Hour := BackupSetting.Hour backupSetting;
           BackupSetting.DayOfWeek := BackupSetting.DayOfWeek backupSetting;
           BackupSetting.PathTemplate := BackupSetting.PathTemplate backupSetting |} in
      emit (go_scheduleBackupTask backupSetting uniqueKey epoch)
  end.

Fixpoint rangeOver (uniqueKey : string) (epoch : Z) (list : list BackupSetting.t) : M unit :=
  match list with
  | [] => ret tt
  | backupSetting :: rest =>
      forBackupSetting uniqueKey epoch backupSetting ;;
      rangeOver uniqueKey epoch rest
  end.

(** One tick: the body of the function the loop of [Run] calls, below
    its [defer]. *)
Definition tick : M unit :=
  now <- call time_Now ;;
  (* Find all databases that need a backup in this hour. *)
  let t := bucketOf now in
  let match_ := matchOf t in
  let uniqueKey := itoa (time.Unix t) in
  now' <- call time_Now ;;
  let epoch := time.Unix (time.UTC now') in
  '(list, err) <- call (FindBackupSettingsMatch match_) ;;
  match err with
  | Some err => emit (l_Error "Failed to retrieve backup settings match" [zap_Error err])
  | None => ret tt
  end ;;
  rangeOver uniqueKey epoch list.

(** The deferred function of a tick:
    [if r := recover(); r != nil { ...; s.l.Error(...) }]. *)
Definition recoverTick (o : Outcome unit) : M (Outcome unit) :=
  match o with
  | Returned _ => ret (Returned tt)
  | Panicked r =>
      let err :=
        match r with
        | PanicError err => err
        | PanicOther v => errorString v
        end in
      emit (l_Error "Backup runner PANIC RECOVER" [zap_Error err]) ;;
      ret (Returned tt)
  end.

(** The first [n] rounds of the [for] loop of the goroutine that [Run]
    starts. *)
Fixpoint loop (backupRunnerInterval : time.Duration) (n : nat) : M unit :=
  match n with
  | O => ret tt
  | S n' =>
      Defer tick recoverTick (fun _ => ret tt) ;;
      emit (time_Sleep backupRunnerInterval) ;;
      loop backupRunnerInterval n'
  end.

End Runner.

(** ** Reading a trace *)

(** The scheduling attempts a run has started, in order. *)
Fixpoint launched (tr : list (Obs Call Effect)) : list (BackupSetting.t * string * Z) :=
  match tr with
  | [] => []
  | Did (go_scheduleBackupTask backupSetting uniqueKey epoch) :: tr' =>
      (backupSetting, uniqueKey, epoch) :: launched tr'
  | _ :: tr' => launched tr'
  end.

(** The answer of a call to [ComposeDatabaseByFind] that returned. *)
Definition resolutionOf (o : Obs Call Effect) : option (DatabaseFind.t * (Database.t + error)) :=
  match o with
  | Called e r =>
      match e in Call X return Outcome X -> option (DatabaseFind.t * (Database.t + error)) with
      | ComposeDatabaseByFind find =>
          fun r => match r with Returned x => Some (find, x) | Panicked _ => None end
      | _ => fun _ => None
      end r
  | Did _ => None
  end.

(** The database resolutions of a run, in order. *)
Fixpoint resolutions (tr : list (Obs Call Effect))
  : list (DatabaseFind.t * (Database.t + error)) :=
  match tr with
  | [] => []
  | o :: tr' =>
      match resolutionOf o with
      | Some r => r :: resolutions tr'
      | None => resolutions tr'
      end
  end.

(** [backupSetting.Database = database] *)
Definition withDatabase (backupSetting : BackupSetting.t) (database : Database.t)
  : BackupSetting.t :=
  {| BackupSetting.ID := BackupSetting.ID backupSetting;
     BackupSetting.DatabaseId := BackupSetting.DatabaseId backupSetting;
     BackupSetting.Database := Some database;
     BackupSetting.Hour := BackupSetting.Hour backupSetting;
     BackupSetting.DayOfWeek := BackupSetting.DayOfWeek backupSetting;
     BackupSetting.PathTemplate := BackupSetting.PathTemplate backupSetting |}.

(** The attempts a tick starts for the matches [l] whose resolutions
    ended as [rs]: one for each match whose resolution succeeded. *)
Fixpoint expectedLaunches (uniqueKey : string) (epoch : Z) (l : list BackupSetting.t)
         (rs : list (Database.t + error)) : list (BackupSetting.t * string * Z) :=
  match l, rs with
  | backupSetting :: l', inl database :: rs' =>
      (withDatabase backupSetting database, uniqueKey, epoch)
        :: expectedLaunches uniqueKey epoch l' rs'
  | _ :: l', inr _ :: rs' => expectedLaunches uniqueKey epoch l' rs'
  | _, _ => []
  end.

(** Every call to [ComposeDatabaseByFind] returns, with a database or
    with an error. *)
Definition resolves (W : Type) (handle : forall X : Type, Call X -> W -> Outcome X * W)
  : Prop :=
  forall (find : DatabaseFind.t) (w : W),
  exists r w', handle _ (ComposeDatabaseByFind find) w = (Returned r, w').

End server.

(* ================================================================== *)
(** * Package [store]: looking up projects *)
(* ================================================================== *)

Module store.

(** An argument of a query. *)
Inductive Value : Type :=
| VInt (v : Z)
| VRowStatus (v : RowStatus).

(** An open transaction. *)
Definition Tx := Z.

(** The result set of a query as the loop over it sees it: the outcome
    of [Scan] at each row [Next] reaches, and the final [rows.Err()]. *)
Record Rows := { scans : list (Project.t + error); rowsErr : option error }.

Inductive Call : Type -> Type :=
| BeginTx : Call (Tx + error)
| QueryContext (tx : Tx) (query : string) (args : list Value) : Call (Rows + error).

Inductive Effect : Type :=
| tx_Rollback (tx : Tx)
| rows_Close
| l_Warn (msg : string).

Definition M := Prog Call Effect.

(** A deferred call that does not recover. *)
Definition thenDo {X : Type} (o : Effect) (r : Outcome X) : M (Outcome X) :=
  emit o ;; ret r.

Section Project.

Context {env : Env}.

Definition selectProject : string := "
		SELECT 
		    id,
			row_status,
		    creator_id,
		    created_ts,
		    updater_id,
		    updated_ts,
			workspace_id,
			name,
			key
		FROM project
		WHERE ".

(** The [WHERE] clause and the arguments of [findProjectList]. *)
Definition whereOf (find : ProjectFind.t) : list string * list Value :=
  let '(where_, args) := (["1 = 1"], []) in
  let '(where_, args) :=
    match ProjectFind.ID find with
    | Some v => ((where_ ++ ["id = ?"])%list, (args ++ [VInt v])%list)
    | None => (where_, args)
    end in
  let '(where_, args) :=
    match ProjectFind.RowStatus find with
    | Some v => ((where_ ++ ["row_status = ?"])%list, (args ++ [VRowStatus v])%list)
    | None => (where_, args)
    end in
  let '(where_, args) :=
    match ProjectFind.WorkspaceId find with
    | Some v => ((where_ ++ ["workspace_id = ?"])%list, (args ++ [VInt v])%list)
    | None => (where_, args)
    end in
  let '(where_, args) :=
    match ProjectFind.PrincipalId find with
    | Some v =>
        ((where_ ++ ["id IN (SELECT project_id FROM project_member WHERE principal_id = ?)"])%list,
         (args ++ [VInt v])%list)
    | None => (where_, args)
    end in
  (where_, args).

(** The query [findProjectList] sends. *)
Definition queryOf (tx : Tx) (find : ProjectFind.t) : Call (Rows + error) :=
  QueryContext tx (selectProject ++ strings.Join (fst (whereOf find)) " AND ")
               (snd (whereOf find)).

(** [for rows.Next() { ... rows.Scan(...) ...; list = append(list, &project) }] *)
Fixpoint scanAll (scans : list (Project.t + error)) (found : list Project.t)
  : list Project.t + error :=
  match scans with
  | [] => inl found
  | inl project :: rest => scanAll rest (found ++ [project])%list
  | inr err :: _ => inr (FormatError err)
  end.

(** [func findProjectList(ctx, tx, find) (_ []*api.Project, err error)] *)
Definition findProjectList (tx : Tx) (find : ProjectFind.t)
  : M (list Project.t + error) :=
  (* Build WHERE clause. *)
  let '(where_, args) := whereOf find in
  r <- call (QueryContext tx (selectProject ++ strings.Join where_ " AND ") args) ;;
  match r with
  | inr err => ret (inr (FormatError err))
  | inl rows =>
      Defer
        ((* Iterate over result set and deserialize rows into list. *)
         match scanAll (scans rows) [] with
         | inr err => ret (inr err)
         | inl found =>
             match rowsErr rows with
             | Some err => ret (inr (FormatError err))
             | None => ret (inl found)
             end
         end)
        (thenDo rows_Close)
        (fun r => ret r)
  end.

(** [func (s *ProjectService) FindProject(ctx, find)], which returns a
    project, or an error. *)
Definition FindProject (find : ProjectFind.t) : M (Project.t + error) :=
  r <- call BeginTx ;;
  match r with
  | inr err => ret (inr (FormatError err))
  | inl tx =>
      Defer
        (r <- findProjectList tx find ;;
         match r with
         | inr err => ret (inr err)
         | inl [] =>
             ret (inr (Error ENOTFOUND
                         ("project not found: " ++
                          SprintFind find)))
         | inl (first :: rest) =>
             match rest with
             | _ :: _ =>
                 emit (l_Warn ("found mulitple projects: "
                               ++ itoa (Z.of_nat (List.length (first :: rest)))
                               ++ ", expect 1"))
             | [] => ret tt
             end ;;
             ret (inl first)
         end)
        (thenDo (tx_Rollback tx))
        (fun r => ret r)
  end.

End Project.

End store.

(* ================================================================== *)
(** * Package [store]: listing, creating and patching projects *)
(* ================================================================== *)

Module ProjectCreate.
Record t := { CreatorId : Z; WorkspaceId : Z; Name : string; Key : string }.
End ProjectCreate.

(** [RowStatus], [Name] and [Key] are pointers to strings. *)
Module ProjectPatch.
Record t := {
  ID : Z;
  UpdaterId : Z;
  RowStatus : option string;
  Name : option string;
  Key : option string
}.
End ProjectPatch.

Module projectservice.

(** An argument of a writing query; [ARowStatus v] is [api.RowStatus(v)]. *)
Inductive Arg : Type :=
| AInt (v : Z)
| AString (v : string)
| ARowStatus (v : string).

Inductive Call : Type -> Type :=
| BeginTx : Call (store.Tx + error)
| QueryContext (tx : store.Tx) (query : string) (args : list Arg) : Call (store.Rows + error)
| Commit (tx : store.Tx) : Call (option error).

Definition M := Prog Call store.Effect.

(** A deferred call that does not recover. *)
Definition thenDo {X : Type} (o : store.Effect) (r : Outcome X) : M (Outcome X) :=
  emit o ;; ret r.

(** The number of [?] in a query. *)
Fixpoint placeholders (query : string) : nat :=
  match query with
  | EmptyString => 0
  | String c rest => (if Ascii.eqb c "?" then 1 else 0) + placeholders rest
  end.

Section Service.

Context {env : Env}.

(** The error of [Scan] on rows that [Next] has closed without error: it
    is of [database/sql], not of the sources. *)
Variable errRowsClosed : error.

(** [func (s *ProjectService) FindProjectList(ctx, find)], which returns
    a list and an error; the nil slice and the empty slice are both the
    empty list. *)
Definition FindProjectList (find : ProjectFind.t) : store.M (list Project.t * option error) :=
  r <- call store.BeginTx ;;
  match r with
  | inr err => ret ([], Some (FormatError err))
  | inl tx =>
      Defer
        (r <- store.findProjectList tx find ;;
         match r with
         | inr err => ret ([], Some err)
         | inl found => ret (found, None)
         end)
        (store.thenDo (store.tx_Rollback tx))
        (fun r => ret r)
  end.

Definition insertProject : string := "
		INSERT INTO project (
			creator_id,
			updater_id,
			workspace_id,
			environment_id,
			name,
			key
		)
		VALUES (?, ?, ?, ?, ?, ?)
		RETURNING id, row_status, creator_id, created_ts, updater_id, updated_ts, workspace_id, name, `key`
	".

(** The arguments of the insertion, in the order of the call. *)
Definition insertArgs (create : ProjectCreate.t) : list Arg :=
  [AInt (ProjectCreate.CreatorId create);
   AInt (ProjectCreate.CreatorId create);
   AInt (ProjectCreate.WorkspaceId create);
   AString (ProjectCreate.Name create);
   AString (ProjectCreate.Key create)].

(** [row.Next()], its result dropped, then [row.Scan(...)]: the scan of
    the first row if there is one; else the error that ended the
    iteration, or the error of scanning closed rows. *)
Definition nextThenScan (row : store.Rows) : Project.t + error :=
  match store.scans row with
  | r :: _ => r
  | [] =>
      match store.rowsErr row with
      | Some err => inr err
      | None => inr errRowsClosed
      end
  end.

(** [func createProject(ctx, tx, create)] *)
Definition createProject (tx : store.Tx) (create : ProjectCreate.t) : M (Project.t + error) :=
  (* Insert row into database. *)
  r <- call (QueryContext tx insertProject (insertArgs create)) ;;
  match r with
  | inr err => ret (inr (FormatError err))
  | inl row =>
      Defer
        (match nextThenScan row with
         | inr err => ret (inr (FormatError err))
         | inl project => ret (inl project)
         end)
        (thenDo store.rows_Close)
        (fun r => ret r)
  end.

(** [func (s *ProjectService) CreateProject(ctx, create)] *)
Definition CreateProject (create : ProjectCreate.t) : M (Project.t + error) :=
  r <- call BeginTx ;;
  match r with
  | inr err => ret (inr (FormatError err))
  | inl tx =>
      Defer
        (r <- createProject tx create ;;
         match r with
         | inr err => ret (inr err)
         | inl project =>
             c <- call (Commit tx) ;;
             match c with
             | Some err => ret (inr (FormatError err))
             | None => ret (inl project)
             end
         end)
        (thenDo (store.tx_Rollback tx))
        (fun r => ret r)
  end.

(** The [SET] clause and the arguments of [patchProject], the id of the
    project last. *)
Definition setOf (patch : ProjectPatch.t) : list string * list Arg :=
  let '(set, args) := (["updater_id = ?"], [AInt (ProjectPatch.UpdaterId patch)]) in
  let '(set, args) :=
    match ProjectPatch.RowStatus patch with
    | Some v => ((set ++ ["row_status = ?"])%list, (args ++ [ARowStatus v])%list)
    | None => (set, args)
    end in
  let '(set, args) :=
    match ProjectPatch.Name patch with
    | Some v => ((set ++ ["name = ?"])%list, (args ++ [AString v])%list)
    | None => (set, args)
    end in
  let '(set, args) :=
    match ProjectPatch.Key patch with
    | Some v => ((set ++ ["`key` = ?"])%list, (args ++ [AString v])%list)
    | None => (set, args)
    end in
  (set, (args ++ [AInt (ProjectPatch.ID patch)])%list).

(** The query [patchProject] sends. *)
Definition updateProject (patch : ProjectPatch.t) : string :=
  "
		UPDATE project
		SET " ++ strings.Join (fst (setOf patch)) ", " ++ "
		WHERE id = ?
		RETURNING id, row_status, creator_id, created_ts, updater_id, updated_ts, workspace_id, name, `key`
	".

(** [func patchProject(ctx, tx, patch)] *)
Definition patchProject (tx : store.Tx) (patch : ProjectPatch.t) : M (Project.t + error) :=
  (* Execute update query with RETURNING. *)
  r <- call (QueryContext tx (updateProject patch) (snd (setOf patch))) ;;
  match r with
  | inr err => ret (inr (FormatError err))
  | inl row =>
      Defer
        (match store.scans row with
         | inr err :: _ => ret (inr (FormatError err))
         | inl project :: _ => ret (inl project)
         | [] =>
             ret (inr (Error ENOTFOUND
                         ("project ID not found: " ++ itoa (ProjectPatch.ID patch))))
         end)
        (thenDo store.rows_Close)
        (fun r => ret r)
  end.

(** [func (s *ProjectService) PatchProject(ctx, patch)] *)
Definition PatchProject (patch : ProjectPatch.t) : M (Project.t + error) :=
  r <- call BeginTx ;;
  match r with
  | inr err => ret (inr (FormatError err))
  | inl tx =>
      Defer
        (r <- patchProject tx patch ;;
         match r with
         | inr err => ret (inr (FormatError err))
         | inl project =>
             c <- call (Commit tx) ;;
             match c with
             | Some err => ret (inr (FormatError err))
             | None => ret (inl project)
             end
         end)
        (thenDo (store.tx_Rollback tx))
        (fun r => ret r)
  end.

End Service.

(** ** Reading a trace *)

(** The commits of a run and how each ended, in order. *)
Fixpoint commits (tr : list (Obs Call store.Effect))
  : list (store.Tx * Outcome (option error)) :=
  match tr with
  | [] => []
  | Called e r :: tr' =>
      match e in Call X return Outcome X -> list (store.Tx * Outcome (option error)) with
      | Commit tx => fun r => (tx, r) :: commits tr'
      | _ => fun _ => commits tr'
      end r
  | Did _ :: tr' => commits tr'
  end.

(** The transactions a run has rolled back, in order. *)
Fixpoint rollbacks (E : Type -> Type) (tr : list (Obs E store.Effect)) : list store.Tx :=
  match tr with
  | [] => []
  | Did (store.tx_Rollback tx) :: tr' => tx :: rollbacks tr'
  | _ :: tr' => rollbacks tr'
  end.

(** ** The parts of the operations, for the statements below *)

Section Parts.

Context {env : Env}.
Variable W : Type.
Variable handle : forall X : Type, Call X -> W -> Outcome X * W.

(** What [CreateProject] and [PatchProject] do once the statement has
    ended with [r]: on an error, return it ([PatchProject] through
    [FormatError], which is [wrap]); else commit, and return the project
    unless the commit fails. *)
Definition thenCommit (tx : store.Tx) (w : W) (r : Project.t + error)
           (wrap : error -> error)
  : Outcome (Project.t + error) * W * list (Obs Call store.Effect) :=
  match r with
  | inr err => (Returned (inr (wrap err)), w, [])
  | inl project =>
      match handle (Commit tx) w with
      | (Panicked v, w') => (Panicked v, w', [Called (Commit tx) (Panicked v)])
      | (Returned (Some err), w') =>
          (Returned (inr (FormatError err)), w', [Called (Commit tx) (Returned (Some err))])
      | (Returned None, w') =>
          (Returned (inl project), w', [Called (Commit tx) (Returned None)])
      end
  end.

(** What [patchProject] makes of the rows of its statement. *)
Definition patched (patch : ProjectPatch.t) (row : store.Rows) : Project.t + error :=
  match store.scans row with
  | inr err :: _ => inr (FormatError err)
  | inl project :: _ => inl project
  | [] => inr (Error ENOTFOUND ("project ID not found: " ++ itoa (ProjectPatch.ID patch)))
  end.

(** What [createProject] makes of the rows of its statement. *)
Definition inserted (errRowsClosed : error) (row : store.Rows) : Project.t + error :=
  match nextThenScan errRowsClosed row with
  | inr err => inr (FormatError err)
  | inl project => inl project
  end.

(** The discipline of a writing operation, read off its run from [w]:
    it returns a project exactly when its one commit returned nil; it
    commits at most once; once the transaction is open, the rollback is
    the last thing it does, and it rolls back once; when the transaction
    does not open, it returns that error and does nothing else. *)
Definition disciplined (w : W)
           (run : Outcome (Project.t + error) * W * list (Obs Call store.Effect)) : Prop :=
  let '(r, _, tr) := run in
  ((exists project, r = Returned (inl project)) <->
   (exists tx, commits tr = [(tx, Returned None)]))
  /\ (List.length (commits tr) <= 1)%nat
  /\ (forall tx w1,
         handle BeginTx w = (Returned (inl tx), w1) ->
         last tr (Did store.rows_Close) = Did (store.tx_Rollback tx) /\
         rollbacks tr = [tx])
  /\ (forall err w1,
         handle BeginTx w = (Returned (inr err), w1) ->
         r = Returned (inr (FormatError err)) /\ tr = [Called BeginTx (Returned (inr err))]).

(** The error of [FindProject] when nothing is found, and the warning
    when more than one project is. *)
Definition notFound (find : ProjectFind.t) : error :=
  Error ENOTFOUND ("project not found: " ++ SprintFind find).

Definition warning (found : list Project.t) : list (Obs store.Call store.Effect) :=
  match found with
  | _ :: _ :: _ =>
      [Did (store.l_Warn ("found mulitple projects: "
                          ++ itoa (Z.of_nat (List.length found)) ++ ", expect 1"))]
  | _ => []
  end.

End Parts.

End projectservice.

(* ================================================================== *)
(** * Reading the trace of the runner *)
(* ================================================================== *)

Module observe.

Import server.

(** The effects of a run, in order. *)
Fixpoint effects (E : Type -> Type) (O : Type) (tr : list (Obs E O)) : list O :=
  match tr with
  | [] => []
  | Did o :: tr' => o :: effects tr'
  | Called _ _ :: tr' => effects tr'
  end.

(** The durations a run has slept, in order. *)
Fixpoint sleeps (tr : list (Obs Call Effect)) : list time.Duration :=
  match tr with
  | [] => []
  | Did (time_Sleep d) :: tr' => d :: sleeps tr'
  | _ :: tr' => sleeps tr'
  end.

(** The name and the creator of the entity a call asks to create. *)
Definition creationOf (o : Obs Call Effect) : option (string * Z) :=
  match o with
  | Called e _ =>
      match e with
      | CreateBackup c => Some (BackupCreate.Name c, BackupCreate.CreatorId c)
      | CreatePipeline c => Some (PipelineCreate.Name c, PipelineCreate.CreatorId c)
      | CreateStage c => Some (StageCreate.Name c, StageCreate.CreatorId c)
      | CreateTask c => Some (TaskCreate.Name c, TaskCreate.CreatorId c)
      | _ => None
      end
  | Did _ => None
  end.

(** The place of a call in the chain backup, pipeline, stage, task;
    [None] for what is no creation. *)
Definition stepOf (o : Obs Call Effect) : option nat :=
  match o with
  | Called e _ =>
      match e with
      | CreateBackup _ => Some 0%nat
      | CreatePipeline _ => Some 1%nat
      | CreateStage _ => Some 2%nat
      | CreateTask _ => Some 3%nat
      | _ => None
      end
  | Did _ => None
  end.

(** The calls that create an entity. *)
Definition isCreation (X : Type) (e : Call X) : bool :=
  match e with
  | CreateBackup _ | CreatePipeline _ | CreateStage _ | CreateTask _ => true
  | _ => false
  end.

(** Every call that creates an entity returns, with the entity or with
    an error: it does not panic. *)
Definition creationsReturn (W : Type) (handle : forall X : Type, Call X -> W -> Outcome X * W)
  : Prop :=
  forall (X : Type) (e : Call X) (w : W),
  isCreation e = true -> exists x w', handle X e w = (Returned x, w').

End observe.

(* ================================================================== *)
(** * The entity store the runner talks to *)
(* ================================================================== *)

Module entitystore.

Import server.

(** The entities of the store, and the readings [time.Now] will give
    (the last one is kept once reached). *)
Record Store := {
  clock : list time.Time;
  settings : list BackupSetting.t;
  databases : list Database.t;
  backups : list Backup.t;
  pipelines : list Pipeline.t;
  stages : list Stage.t;
  tasks : list Task.t
}.

Definition readClock (w : Store) : time.Time * Store :=
  match clock w with
  | [] => (0, w)
  | [t] => (t, w)
  | t :: rest =>
      (t, {| clock := rest; settings := settings w; databases := databases w;
             backups := backups w; pipelines := pipelines w; stages := stages w;
             tasks := tasks w |})
  end.

(** Modelled from the spec: [BackupService.FindBackupSettingsMatch] is
    not in the sources; it returns the backup settings whose hour and
    day of week are those of the match ("hour == bucket.hour AND
    day_of_week == bucket.day_of_week"). *)
Definition findBackupSettingsMatch (w : Store) (m : BackupSettingsMatch.t)
  : list BackupSetting.t :=
  filter (fun bs =>
            (BackupSetting.Hour bs =? BackupSettingsMatch.Hour m) &&
            (BackupSetting.DayOfWeek bs =? BackupSettingsMatch.DayOfWeek m))
         (settings w).

(** Modelled from the spec: [Server.ComposeDatabaseByFind] is not in the
    sources; it returns the database of the given id with its instance
    and environment, or fails with NotFound. *)
Definition composeDatabaseByFind (w : Store) (find : DatabaseFind.t)
  : Database.t + error :=
  match DatabaseFind.ID find with
  | Some id =>
      match List.find (fun d => Database.ID d =? id) (databases w) with
      | Some d => inl d
      | None => inr (Error ENOTFOUND "database not found")
      end
  | None =>
      match databases w with
      | d :: _ => inl d
      | [] => inr (Error ENOTFOUND "database not found")
      end
  end.

Definition nextID {A : Type} (l : list A) : Z := Z.of_nat (List.length l) + 1.

(** Modelled from the spec: [BackupService.CreateBackup] is not in the
    sources; (database, name) is unique among backups, and creating a
    second backup with the pair of an existing one fails with the
    "already exists" error. *)
Definition createBackup (w : Store) (c : BackupCreate.t) : (Backup.t + error) * Store :=
  if existsb (fun b => (Backup.DatabaseId b =? BackupCreate.DatabaseId c) &&
                       (Backup.Name b =? BackupCreate.Name c)%string)
             (backups w)
  then (inr (Error ECONFLICT "backup already exists"), w)
  else
    let b := {| Backup.ID := nextID (backups w);
                Backup.CreatorId := BackupCreate.CreatorId c;
                Backup.DatabaseId := BackupCreate.DatabaseId c;
                Backup.Name := BackupCreate.Name c;
                Backup.Status := BackupCreate.Status c;
                Backup.Type_ := BackupCreate.Type_ c;
                Backup.StorageBackend := BackupCreate.StorageBackend c;
                Backup.Path := BackupCreate.Path c;
                Backup.Comment := BackupCreate.Comment c |} in
    (inl b,
     {| clock := clock w; settings := settings w; databases := databases w;
        backups := (backups w ++ [b])%list; pipelines := pipelines w;
        stages := stages w; tasks := tasks w |}).

(** Modelled from the spec: [PipelineService.CreatePipeline] is not in
    the sources; it stores the pipeline under a new id. *)
Definition createPipeline (w : Store) (c : PipelineCreate.t) : (Pipeline.t + error) * Store :=
  let p := {| Pipeline.ID := nextID (pipelines w);
              Pipeline.Name := PipelineCreate.Name c;
              Pipeline.CreatorId := PipelineCreate.CreatorId c |} in
  (inl p,
   {| clock := clock w; settings := settings w; databases := databases w;
      backups := backups w; pipelines := (pipelines w ++ [p])%list;
      stages := stages w; tasks := tasks w |}).

(** Modelled from the spec: [StageService.CreateStage] is not in the
    sources; it stores the stage under a new id. *)
Definition createStage (w : Store) (c : StageCreate.t) : (Stage.t + error) * Store :=
  let s := {| Stage.ID := nextID (stages w);
              Stage.Name := StageCreate.Name c;
              Stage.EnvironmentId := StageCreate.EnvironmentId c;
              Stage.PipelineId := StageCreate.PipelineId c;
              Stage.CreatorId := StageCreate.CreatorId c |} in
  (inl s,
   {| clock := clock w; settings := settings w; databases := databases w;
      backups := backups w; pipelines := pipelines w;
      stages := (stages w ++ [s])%list; tasks := tasks w |}).

(** Modelled from the spec: [TaskService.CreateTask] is not in the
    sources; it stores the task under a new id. *)
Definition createTask (w : Store) (c : TaskCreate.t) : (Task.t + error) * Store :=
  let t := {| Task.ID := nextID (tasks w);
              Task.Name := TaskCreate.Name c;
              Task.PipelineId := TaskCreate.PipelineId c;
              Task.StageId := TaskCreate.StageId c;
              Task.InstanceId := TaskCreate.InstanceId c;
              Task.DatabaseId := TaskCreate.DatabaseId c;
              Task.Status := TaskCreate.Status c;
              Task.Type_ := TaskCreate.Type_ c;
              Task.Payload := TaskCreate.Payload c;
              Task.CreatorId := TaskCreate.CreatorId c |} in
  (inl t,
   {| clock := clock w; settings := settings w; databases := databases w;
      backups := backups w; pipelines := pipelines w; stages := stages w;
      tasks := (tasks w ++ [t])%list |}).

(** The store without faults. *)
Definition serve (X : Type) (e : Call X) (w : Store) : X * Store :=
  match e in Call X return X * Store with
  | time_Now => readClock w
  | FindBackupSettingsMatch m => ((findBackupSettingsMatch w m, None), w)
  | ComposeDatabaseByFind find => (composeDatabaseByFind w find, w)
  | CreateBackup c => createBackup w c
  | CreatePipeline c => createPipeline w c
  | CreateStage c => createStage w c
  | CreateTask c => createTask w c
  end.

(** The store with faults: a call for which [fault] has an answer (an
    error, or a panic) ends with that answer and leaves the store as it
    is. *)
Definition handle (fault : forall X : Type, Call X -> option (Outcome X))
           (X : Type) (e : Call X) (w : Store) : Outcome X * Store :=
  match fault X e with
  | Some o => (o, w)
  | None => let '(x, w') := serve e w in (Returned x, w')
  end.

Definition noFault (X : Type) (e : Call X) : option (Outcome X) := None.

End entitystore.

(** The double quote. *)
Definition quote : string := String (ascii_of_nat 34) "".

(** A sample environment: the code of a [*bytebase.Error] is its [Code]
    and any other error is internal; an error prints as its message. *)

#[local] Instance sampleEnv : Env := {|
  ErrorCode := fun e => match e with Error c _ => c | errorString _ => ECode "INTERNAL" end;
  ErrorText := fun e => match e with Error _ m => m | errorString m => m end;
  FormatError := fun e =>
    match e with Error _ _ => e | errorString m => Error (ECode "INTERNAL") m end;
  SYSTEM_BOT_ID := 1;
  MarshalBackupPayload := fun id => inl ("{" ++ quote ++ "backupId" ++ quote ++ ":" ++ itoa id ++ "}");
  SprintFind := fun _ => "&{...}"
|}.

(* ================================================================== *)
(** * Sample data *)
(* ================================================================== *)

Module sample.

Import server entitystore.

Definition environment : Environment.t :=
  {| Environment.ID := 7; Environment.Name := "prod" |}.

Definition instance : Instance.t :=
  {| Instance.ID := 3; Instance.EnvironmentId := 7; Instance.Environment := environment |}.

Definition database : Database.t :=
  {| Database.ID := 42; Database.Name := "shop"; Database.InstanceId := 3;
     Database.Instance := instance |}.

(** Database 42, Tuesdays at 3, with a path template. *)
Definition setting : BackupSetting.t :=
  {| BackupSetting.ID := 1; BackupSetting.DatabaseId := 42;
     BackupSetting.Database := None;
     BackupSetting.Hour := 3; BackupSetting.DayOfWeek := 2;
     BackupSetting.PathTemplate := "/b/{{TIME}}.sql" |}.

(** Database 43, which no longer exists, at the same hour. *)
Definition staleSetting : BackupSetting.t :=
  {| BackupSetting.ID := 2; BackupSetting.DatabaseId := 43;
     BackupSetting.Database := None;
     BackupSetting.Hour := 3; BackupSetting.DayOfWeek := 2;
     BackupSetting.PathTemplate := "" |}.

(** Database 42 again, on Wednesdays at 4. *)
Definition otherDaySetting : BackupSetting.t :=
  {| BackupSetting.ID := 3; BackupSetting.DatabaseId := 42;
     BackupSetting.Database := None;
     BackupSetting.Hour := 4; BackupSetting.DayOfWeek := 3;
     BackupSetting.PathTemplate := "" |}.

(** Tuesday, November 14, 2023, 03:17:00 UTC, and one second later. *)
Definition now : time.Time := 1699931820 * time.Second.
Definition later : time.Time := now + time.Second.

Definition initialAt (t : time.Time) : Store :=
  {| clock := [t];
     settings := [staleSetting; otherDaySetting; setting];
     databases := [database];
     backups := []; pipelines := []; stages := []; tasks := [] |}.

Definition initial : Store := initialAt now.

(** The attempt a tick at [now] starts for [setting]. *)
Definition resolved : BackupSetting.t := withDatabase setting database.

(** The store once the backup of the bucket of [now] exists. *)
Definition withBackup `{Env} : Store :=
  snd (createBackup initial (backupCreateOf resolved database "1699930800" 1699931820)).

Definition internal : error := errorString "database is locked".

Definition failing (c : forall X : Type, Call X -> bool) (X : Type) (e : Call X)
  : option (Outcome X) :=
  if c X e
  then
    match e in Call X return option (Outcome X) with
    | time_Now => None
    | FindBackupSettingsMatch _ => Some (Returned ([], Some internal))
    | ComposeDatabaseByFind _ => Some (Returned (inr internal))
    | CreateBackup _ => Some (Returned (inr internal))
    | CreatePipeline _ => Some (Returned (inr internal))
    | CreateStage _ => Some (Returned (inr internal))
    | CreateTask _ => Some (Returned (inr internal))
    end
  else None.

Definition isCreatePipeline (X : Type) (e : Call X) : bool :=
  match e with CreatePipeline _ => true | _ => false end.

Definition project (id : Z) (name : string) : Project.t :=
  {| Project.ID := id; Project.RowStatus := Normal; Project.CreatorId := 1;
     Project.CreatedTs := 0; Project.UpdaterId := 1; Project.UpdatedTs := 0;
     Project.WorkspaceId := 1; Project.Name := name; Project.Key := name |}.

Definition anyProject : ProjectFind.t :=
  {| ProjectFind.ID := None; ProjectFind.RowStatus := None;
     ProjectFind.WorkspaceId := Some 1; ProjectFind.PrincipalId := None |}.

(** A database that opens transaction 1 and answers every query with
    the given projects. *)
Definition answering (found : list Project.t) (X : Type) (e : store.Call X) (w : unit)
  : Outcome X * unit :=
  match e in store.Call X return Outcome X * unit with
  | store.BeginTx => (Returned (inl 1), w)
  | store.QueryContext _ _ _ =>
      (Returned (inl {| store.scans := map inl found; store.rowsErr := None |}), w)
  end.

End sample.

Module fixtures.

Import server.

(** An environment in which the payload cannot be serialized. *)
Definition unmarshallable : Env := {|
  ErrorCode := @ErrorCode sampleEnv;
  ErrorText := @ErrorText sampleEnv;
  FormatError := @FormatError sampleEnv;
  SYSTEM_BOT_ID := @SYSTEM_BOT_ID sampleEnv;
  MarshalBackupPayload := fun _ => inr (errorString "unsupported value");
  SprintFind := @SprintFind sampleEnv
|}.

Definition crash : PanicValue := PanicOther "index out of range".

(** A fault of the entity store: the resolution of database 42 panics. *)
Definition crashing (X : Type) (e : Call X) : option (Outcome X) :=
  match e in Call X return option (Outcome X) with
  | ComposeDatabaseByFind find =>
      match DatabaseFind.ID find with
      | Some 42 => Some (Panicked crash)
      | _ => None
      end
  | _ => None
  end.


(** A fault of the entity store: the creation of a backup fails. *)
Definition isCreateBackup (X : Type) (e : Call X) : bool :=
  match e with CreateBackup _ => true | _ => false end.

(** A database that refuses to open a transaction. *)
Definition refusing (X : Type) (e : store.Call X) (w : unit) : Outcome X * unit :=
  match e in store.Call X return Outcome X * unit with
  | store.BeginTx => (Returned (inr sample.internal), w)
  | store.QueryContext _ _ _ =>
      (Returned (inl {| store.scans := []; store.rowsErr := None |}), w)
  end.

(** A database that answers every query with rows whose second scan
    fails. *)
Definition garbling (X : Type) (e : store.Call X) (w : unit) : Outcome X * unit :=
  match e in store.Call X return Outcome X * unit with
  | store.BeginTx => (Returned (inl 1), w)
  | store.QueryContext _ _ _ =>
      (Returned (inl {| store.scans := [inl (sample.project 1 "a"); inr sample.internal];
                        store.rowsErr := None |}), w)
  end.

(** A database that opens transaction 1, answers every statement with
    the given rows and every commit with the given error. *)
Definition writing (rows : store.Rows) (commit : option error)
           (X : Type) (e : projectservice.Call X) (w : unit) : Outcome X * unit :=
  match e in projectservice.Call X return Outcome X * unit with
  | projectservice.BeginTx => (Returned (inl 1), w)
  | projectservice.QueryContext _ _ _ => (Returned (inl rows), w)
  | projectservice.Commit _ => (Returned commit, w)
  end.

Definition create : ProjectCreate.t :=
  {| ProjectCreate.CreatorId := 1; ProjectCreate.WorkspaceId := 1;
     ProjectCreate.Name := "a"; ProjectCreate.Key := "A" |}.

Definition rename : ProjectPatch.t :=
  {| ProjectPatch.ID := 1; ProjectPatch.UpdaterId := 1; ProjectPatch.RowStatus := None;
     ProjectPatch.Name := Some "b"; ProjectPatch.Key := None |}.

Definition noRows : store.Rows := {| store.scans := []; store.rowsErr := Some sample.internal |}.

Definition oneRow : store.Rows :=
  {| store.scans := [inl (sample.project 1 "b")]; store.rowsErr := None |}.

Definition rowsClosed : error := errorString "sql: Rows are closed".

End fixtures.

(* ================================================================== *)
(** * Running programs: general facts *)
(* ================================================================== *)

Section ExecFacts.

Variable E : Type -> Type.
Variable O : Type.
Variable W : Type.
Variable handle : forall X : Type, E X -> W -> Outcome X * W.

(** Running [p] and then [f] is running [p], and [f] from where [p]
    returned; a panic of [p] ends the whole. *)
Lemma exec_bindProg (A B : Type) (p : Prog E O A) (f : A -> Prog E O B) (w : W) :
  exec handle (bindProg p f) w =
  match exec handle p w with
  | (Returned a, w', tr) =>
      let '(r, w'', tr') := exec handle (f a) w' in (r, w'', (tr ++ tr')%list)
  | (Panicked v, w', tr) => (Panicked v, w', tr)
  end.
Proof.
  revert B f w.
  induction p as [A a | A X e k IH | A o k IH | A r | A X body _ deferred _ k IH];
    intros B f w; simpl.
  - destruct (exec handle (f a) w) as [[r w'] tr]. reflexivity.
  - destruct (handle e w) as [[x | v] w1]; [ | reflexivity ].
    rewrite IH.
    destruct (exec handle (k x) w1) as [[[a | v] w2] tr]; [ | reflexivity ].
    destruct (exec handle (f a) w2) as [[r w3] tr']. reflexivity.
  - rewrite IH.
    destruct (exec handle k w) as [[[a | v] w1] tr]; [ | reflexivity ].
    destruct (exec handle (f a) w1) as [[r w2] tr']. reflexivity.
  - reflexivity.
  - destruct (exec handle body w) as [[rb wb] trb].
    destruct (exec handle (deferred rb) wb) as [[[[x | v] | v] wd] trd];
      try reflexivity.
    rewrite IH.
    destruct (exec handle (k x) wd) as [[[a | v] w1] tr].
    + destruct (exec handle (f a) w1) as [[r w2] tr'].
      rewrite !app_assoc. reflexivity.
    + reflexivity.
Qed.

Lemma exec_bind (A B : Type) (p : Prog E O A) (f : A -> Prog E O B) (w : W) :
  exec handle (bind p f) w =
  match exec handle p w with
  | (Returned a, w', tr) =>
      let '(r, w'', tr') := exec handle (f a) w' in (r, w'', (tr ++ tr')%list)
  | (Panicked v, w', tr) => (Panicked v, w', tr)
  end.
Proof. exact (exec_bindProg p f w). Qed.

Lemma exec_call (X : Type) (e : E X) (w : W) :
  exec handle (call e) w =
  match handle e w with
  | (Returned x, w') => (Returned x, w', [@Called E O X e (Returned x)])
  | (Panicked v, w') => (Panicked v, w', [@Called E O X e (Panicked v)])
  end.
Proof.
  unfold call. simpl. destruct (handle e w) as [[x | v] w']; reflexivity.
Qed.

Lemma exec_emit (o : O) (w : W) :
  exec handle (emit o) w = (Returned tt, w, [Did o]).
Proof. reflexivity. Qed.

End ExecFacts.

(* ================================================================== *)
(** * Strings *)
(* ================================================================== *)

Lemma itoa_inj (a b : Z) : itoa a = itoa b -> a = b.
Proof.
  unfold itoa. intros H.
  apply DecimalZ.to_int_inj.
  apply (f_equal NilEmpty.int_of_string) in H.
  rewrite !NilEmpty.isi in H. congruence.
Qed.

Lemma append_inv_head (s a b : string) : s ++ a = s ++ b -> a = b.
Proof.
  induction s as [| c s IH]; simpl; [ tauto | ].
  intros H. injection H as H. auto.
Qed.

Lemma append_length (a b : string) :
  String.length (a ++ b) = (String.length a + String.length b)%nat.
Proof. induction a as [| c a IH]; simpl; [ reflexivity | now rewrite IH ]. Qed.

Lemma append_inv_tail (s a b : string) : a ++ s = b ++ s -> a = b.
Proof.
  revert b. induction a as [| c a IH]; intros [| d b] H; simpl in H.
  - reflexivity.
  - apply (f_equal String.length) in H. simpl in H. rewrite append_length in H. lia.
  - apply (f_equal String.length) in H. simpl in H. rewrite append_length in H. lia.
  - injection H as -> H. f_equal. auto.
Qed.

Lemma append_assoc (a b c : string) : (a ++ b) ++ c = a ++ (b ++ c).
Proof. induction a as [| x a IH]; simpl; [ reflexivity | now rewrite IH ]. Qed.

(** ** [strings.ReplaceAll] at the time placeholder *)

Lemma replaceFrom_skip (old new q r : string) :
  strings.replaceFrom (String.length q) (q ++ r) old new = strings.replaceFrom 0 r old new.
Proof.
  induction q as [| c q IH]; simpl; [ | exact IH ].
  destruct r; reflexivity.
Qed.

Lemma prefix_append (old r : string) : prefix old (old ++ r) = true.
Proof.
  induction old as [| c o IH]; simpl; [ destruct r; reflexivity | ].
  destruct (ascii_dec c c); [ exact IH | congruence ].
Qed.

Lemma prefix_true (s1 s2 : string) : prefix s1 s2 = true -> exists r, s2 = s1 ++ r.
Proof.
  revert s2. induction s1 as [| c s1 IH]; intros s2 H.
  - now exists s2.
  - destruct s2 as [| d s2]; simpl in H; [ discriminate | ].
    destruct (ascii_dec c d) as [-> | ]; [ | discriminate ].
    destruct (IH _ H) as [r ->]. now exists r.
Qed.

Lemma Contains_cons (c : ascii) (p substr : string) :
  strings.Contains (String c p) substr
  = prefix substr (String c p) || strings.Contains p substr.
Proof. reflexivity. Qed.

(** A match at the head is replaced, and the scan goes on behind it. *)
Lemma replaceFrom_match (new : string) (c : ascii) (o r : string) :
  strings.replaceFrom 0 (String c o ++ r) (String c o) new
  = new ++ strings.replaceFrom 0 r (String c o) new.
Proof.
  pose proof (prefix_append (String c o) r) as Hp.
  change (String c o ++ r) with (String c (o ++ r)) in *.
  change (strings.replaceFrom 0 (String c (o ++ r)) (String c o) new)
    with (if prefix (String c o) (String c (o ++ r))
          then new ++ strings.replaceFrom (String.length (String c o) - 1) (o ++ r) (String c o) new
          else String c (strings.replaceFrom 0 (o ++ r) (String c o) new)).
  rewrite Hp.
  replace (String.length (String c o) - 1)%nat with (String.length o)
    by (simpl; lia).
  now rewrite replaceFrom_skip.
Qed.

Local Abbreviation TIME := "{{TIME}}"%string.

(** The placeholder has no proper prefix that is also a suffix of it, so
    no instance of it starts in a string free of it and ends in an
    instance that follows. *)
Lemma no_straddle (p r : string) :
  p <> "" -> prefix TIME p = false -> prefix TIME (p ++ TIME ++ r) = false.
Proof.
  intros Hne Hp.
  destruct (prefix TIME (p ++ TIME ++ r)) eqn:H; [ exfalso | reflexivity ].
  apply prefix_true in H. destruct H as [r' H].
  destruct p as [| c1 p]; [ congruence | clear Hne ].
  do 7 (destruct p as [| ? p]; [ simpl in H; congruence | ]).
  simpl in H. injection H as -> -> -> -> -> -> -> -> H.
  exact (eq_true_false_abs _ (prefix_append TIME p) Hp).
Qed.

Lemma replace_before (new p r : string) :
  strings.Contains p TIME = false ->
  strings.replaceFrom 0 (p ++ TIME ++ r) TIME new = p ++ new ++ strings.replaceFrom 0 r TIME new.
Proof.
  induction p as [| c p IH]; intros Hc.
  - apply (replaceFrom_match new "{"%char "{TIME}}" r).
  - rewrite Contains_cons in Hc. apply orb_false_iff in Hc. destruct Hc as [Hp Hc].
    change (strings.replaceFrom 0 (String c p ++ TIME ++ r) TIME new)
      with (if prefix TIME (String c p ++ TIME ++ r)
            then new ++ strings.replaceFrom (String.length TIME - 1) (p ++ TIME ++ r) TIME new
            else String c (strings.replaceFrom 0 (p ++ TIME ++ r) TIME new)).
    rewrite no_straddle by (assumption || discriminate).
    rewrite IH by assumption. reflexivity.
Qed.

Lemma replace_none (new p : string) :
  strings.Contains p TIME = false -> strings.replaceFrom 0 p TIME new = p.
Proof.
  induction p as [| c p IH]; intros Hc; [ reflexivity | ].
  rewrite Contains_cons in Hc. apply orb_false_iff in Hc. destruct Hc as [Hp Hc].
  change (strings.replaceFrom 0 (String c p) TIME new)
    with (if prefix TIME (String c p)
          then new ++ strings.replaceFrom (String.length TIME - 1) p TIME new
          else String c (strings.replaceFrom 0 p TIME new)).
  rewrite Hp, IH by assumption. reflexivity.
Qed.

(** A template is its placeholder-free pieces joined by the placeholder;
    replacing joins them by the new text instead and leaves the pieces as
    they are. *)
Lemma ReplaceAll_Join (new : string) (pieces : list string) :
  Forall (fun p => strings.Contains p TIME = false) pieces ->
  strings.ReplaceAll (strings.Join pieces TIME) TIME new = strings.Join pieces new.
Proof.
  unfold strings.ReplaceAll, strings.Join.
  induction 1 as [| p ps Hp Hps IH]; [ reflexivity | ].
  destruct ps as [| q ps].
  - simpl. now apply replace_none.
  - change (String.concat TIME (p :: q :: ps)) with (p ++ TIME ++ String.concat TIME (q :: ps)).
    change (String.concat new (p :: q :: ps)) with (p ++ new ++ String.concat new (q :: ps)).
    rewrite replace_before by assumption. now rewrite IH.
Qed.

Lemma Contains_suffix (a b substr : string) :
  strings.Contains (a ++ b) substr = false -> strings.Contains b substr = false.
Proof.
  induction a as [| c a IH]; [ tauto | ].
  change (String c a ++ b) with (String c (a ++ b)). rewrite Contains_cons.
  intros H. apply orb_false_iff in H. now apply IH.
Qed.

(** Every template consists of placeholder-free pieces joined by the
    placeholder. *)
Lemma template_pieces (s : string) :
  exists pieces : list string,
    s = strings.Join pieces TIME /\
    Forall (fun p => strings.Contains p TIME = false) pieces.
Proof.
  assert (H : exists p ps,
             s = strings.Join (p :: ps) TIME /\
             Forall (fun p => strings.Contains p TIME = false) (p :: ps)).
  { induction s as [| c s IH].
    - exists "", []. split; [ reflexivity | repeat constructor ].
    - destruct IH as (p & ps & -> & Hfree).
      inversion Hfree as [| ? ? Hp Hps]; subst.
      destruct (prefix TIME (String c p)) eqn:Hpre.
      + apply prefix_true in Hpre. destruct Hpre as [q Hq].
        exists "", (q :: ps). split.
        * unfold strings.Join.
          change (String.concat TIME ("" :: q :: ps)) with (TIME ++ String.concat TIME (q :: ps)).
          destruct ps as [| p' ps].
          -- simpl String.concat. exact Hq.
          -- change (String.concat TIME (p :: p' :: ps))
               with (p ++ TIME ++ String.concat TIME (p' :: ps)).
             change (String.concat TIME (q :: p' :: ps))
               with (q ++ TIME ++ String.concat TIME (p' :: ps)).
             change (String c (p ++ TIME ++ String.concat TIME (p' :: ps)))
               with (String c p ++ TIME ++ String.concat TIME (p' :: ps)).
             rewrite Hq, append_assoc. reflexivity.
        * constructor; [ reflexivity | ]. constructor; [ | exact Hps ].
          injection Hq as _ Hq. rewrite Hq in Hp.
          exact (Contains_suffix "{TIME}}" q TIME Hp).
      + exists (String c p), ps. split.
        * unfold strings.Join. destruct ps; reflexivity.
        * constructor; [ | exact Hps ]. rewrite Contains_cons, Hpre, Hp. reflexivity. }
  destruct H as (p & ps & H1 & H2). now exists (p :: ps).
Qed.

(* ================================================================== *)
(** * Time buckets *)
(* ================================================================== *)

Import server.

Lemma bucketOf_floor (now : time.Time) : bucketOf now = time.Hour * (now / time.Hour).
Proof.
  unfold bucketOf, time.Truncate, time.UTC.
  change (time.Hour <=? 0) with false. cbv iota.
  replace (now + time.unixToInternal * time.Second)
    with (now + 17259888 * time.Hour)
    by (unfold time.Hour, time.Minute, time.Second, time.unixToInternal; lia).
  rewrite Z_mod_plus_full.
  pose proof (Z_div_mod_eq_full now time.Hour). lia.
Qed.

Lemma Unix_bucketOf (now : time.Time) :
  time.Unix (bucketOf now) = 3600 * (now / time.Hour).
Proof.
  rewrite bucketOf_floor. unfold time.Unix.
  replace (time.Hour * (now / time.Hour)) with ((3600 * (now / time.Hour)) * time.Second)
    by (unfold time.Hour, time.Minute; lia).
  apply Z_div_mult_full. unfold time.Second. lia.
Qed.

Lemma bucketOf_bounds (now : time.Time) :
  bucketOf now mod time.Hour = 0 /\ bucketOf now <= now < bucketOf now + time.Hour.
Proof.
  assert (Hpos : 0 < time.Hour) by reflexivity.
  rewrite bucketOf_floor. split.
  - rewrite Z.mul_comm. apply Z_mod_mult.
  - pose proof (Z_div_mod_eq_full now time.Hour).
    pose proof (Z.mod_pos_bound now time.Hour Hpos). lia.
Qed.

Lemma bucketOf_eq (now1 now2 : time.Time) :
  bucketOf now1 = bucketOf now2 <-> now1 / time.Hour = now2 / time.Hour.
Proof.
  assert (Hpos : 0 < time.Hour) by reflexivity.
  rewrite !bucketOf_floor. split; [ nia | congruence ].
Qed.




(* ================================================================== *)
(** * One scheduling attempt *)
(* ================================================================== *)

Section Attempt.

Context {env : Env}.
Variable W : Type.
Variable handle : forall X : Type, Call X -> W -> Outcome X * W.
Variables (backupSetting : BackupSetting.t) (database : Database.t).
Variables (uniqueKey : string) (epoch : Z).
Hypothesis Hdatabase : BackupSetting.Database backupSetting = Some database.

Let key := backupKey uniqueKey (BackupSetting.DatabaseId backupSetting).
Let backupCreate := backupCreateOf backupSetting database uniqueKey epoch.

(** The attempt when the creation of the backup returns an error. *)
Lemma attempt_backup_fails (w w' : W) (err : error) :
  handle (CreateBackup backupCreate) w = (Returned (inr err), w') ->
  exec handle (scheduleBackupTask backupSetting uniqueKey epoch) w =
  (Returned match ErrorCode err with
            | ECONFLICT => None
            | _ => Some (Errorf "failed to create backup: " err)
            end,
   w', [Called (CreateBackup backupCreate) (Returned (inr err))]).
Proof.
  intros H. unfold scheduleBackupTask. rewrite Hdatabase.
  fold backupCreate. cbn [bind Monad_Prog bindProg call exec]. rewrite H.
  destruct (ErrorCode err); reflexivity.
Qed.

(** The attempt once the backup is created: the calls that follow, up
    to the first one that does not return a created entity. *)
Lemma attempt_after_backup (w w1 : W) (backup : Backup.t) :
  handle (CreateBackup backupCreate) w = (Returned (inl backup), w1) ->
  exec handle (scheduleBackupTask backupSetting uniqueKey epoch) w =
  let '(r, w', tr) :=
    match MarshalBackupPayload (Backup.ID backup) with
    | inr err => (Returned (Some (Errorf "failed to create task payload: " err)), w1, [])
    | inl bytes =>
        let pipelineCreate := pipelineCreateOf key in
        match handle (CreatePipeline pipelineCreate) w1 with
        | (Panicked v, w2) =>
            (Panicked v, w2, [Called (CreatePipeline pipelineCreate) (Panicked v)])
        | (Returned (inr err), w2) =>
            (Returned (Some (Errorf "failed to create pipeline: " err)), w2,
             [Called (CreatePipeline pipelineCreate) (Returned (inr err))])
        | (Returned (inl createdPipeline), w2) =>
            let stageCreate := stageCreateOf key database createdPipeline in
            match handle (CreateStage stageCreate) w2 with
            | (Panicked v, w3) =>
                (Panicked v, w3,
                 [Called (CreatePipeline pipelineCreate) (Returned (inl createdPipeline));
                  Called (CreateStage stageCreate) (Panicked v)])
            | (Returned (inr err), w3) =>
                (Returned (Some (Errorf "failed to create stage: " err)), w3,
                 [Called (CreatePipeline pipelineCreate) (Returned (inl createdPipeline));
                  Called (CreateStage stageCreate) (Returned (inr err))])
            | (Returned (inl createdStage), w3) =>
                let taskCreate :=
                  taskCreateOf key database createdPipeline createdStage bytes in
                let '(r, w4) := handle (CreateTask taskCreate) w3 in
                (match r with
                 | Panicked v => Panicked v
                 | Returned (inr err) =>
                     Returned (Some (Errorf "failed to create task: " err))
                 | Returned (inl _) => Returned None
                 end, w4,
                 [Called (CreatePipeline pipelineCreate) (Returned (inl createdPipeline));
                  Called (CreateStage stageCreate) (Returned (inl createdStage));
                  Called (CreateTask taskCreate) r])
            end
        end
    end in
  (r, w', Called (CreateBackup backupCreate) (Returned (inl backup)) :: tr).
Proof.
  intros H. unfold scheduleBackupTask. rewrite Hdatabase.
  fold backupCreate. cbn [bind Monad_Prog bindProg call exec]. rewrite H.
  destruct (MarshalBackupPayload (Backup.ID backup)) as [bytes | err]; [ | reflexivity ].
  cbn [bind Monad_Prog bindProg call exec].
  change (BackupCreate.CreatorId backupCreate) with SYSTEM_BOT_ID.
  fold key. fold (pipelineCreateOf key).
  destruct (handle (CreatePipeline (pipelineCreateOf key)) w1) as [[[p | err] | v] w2];
    [ | reflexivity | reflexivity ].
  cbn [bind Monad_Prog bindProg call exec].
  fold (stageCreateOf key database p).
  destruct (handle (CreateStage (stageCreateOf key database p)) w2)
    as [[[st | err] | v] w3]; [ | reflexivity | reflexivity ].
  cbn [bind Monad_Prog bindProg call exec].
  fold (taskCreateOf key database p st bytes).
  destruct (handle (CreateTask (taskCreateOf key database p st bytes)) w3)
    as [[[t | err] | v] w4]; reflexivity.
Qed.

(** C1. When the creation of the backup fails with the conflict code,
    [scheduleBackupTask] returns nil and its only call is that
    creation: no pipeline, stage or task is created. When it fails with
    any other code, [scheduleBackupTask] returns an error, again after
    that call alone. *)
Theorem scheduleBackupTask_backup_creation_fails (w w' : W) (err : error) :
  handle (CreateBackup backupCreate) w = (Returned (inr err), w') ->
  (ErrorCode err = ECONFLICT ->
   exec handle (scheduleBackupTask backupSetting uniqueKey epoch) w =
   (Returned None, w', [Called (CreateBackup backupCreate) (Returned (inr err))]))
  /\
  (ErrorCode err <> ECONFLICT ->
   exec handle (scheduleBackupTask backupSetting uniqueKey epoch) w =
   (Returned (Some (Errorf "failed to create backup: " err)), w',
    [Called (CreateBackup backupCreate) (Returned (inr err))])).
Proof.
  intros H. rewrite (attempt_backup_fails H).
  split; intros Hcode.
  - now rewrite Hcode.
  - destruct (ErrorCode err); [ congruence | reflexivity | reflexivity ].
Qed.

(** C7. Once the backup is created (and its payload serialized), a
    failure to create the pipeline, the stage or the task makes
    [scheduleBackupTask] return an error. Its calls are then the
    creations up to the failing one, in order, and nothing else: no
    creation follows the failing one and no call deletes or changes the
    backup, so the store is left as the failing creation left it. *)
Theorem partial_creation_keeps_backup (w w1 : W) (backup : Backup.t) (bytes : string) :
  handle (CreateBackup backupCreate) w = (Returned (inl backup), w1) ->
  MarshalBackupPayload (Backup.ID backup) = inl bytes ->
  let run := exec handle (scheduleBackupTask backupSetting uniqueKey epoch) w in
  let createdBackup := Called (CreateBackup backupCreate) (Returned (inl backup)) in
  let pipelineCreate := pipelineCreateOf key in
  (forall err w2,
      handle (CreatePipeline pipelineCreate) w1 = (Returned (inr err), w2) ->
      run = (Returned (Some (Errorf "failed to create pipeline: " err)), w2,
             [createdBackup;
              Called (CreatePipeline pipelineCreate) (Returned (inr err))]))
  /\
  (forall createdPipeline w2 err w3,
      handle (CreatePipeline pipelineCreate) w1 = (Returned (inl createdPipeline), w2) ->
      let stageCreate := stageCreateOf key database createdPipeline in
      handle (CreateStage stageCreate) w2 = (Returned (inr err), w3) ->
      run = (Returned (Some (Errorf "failed to create stage: " err)), w3,
             [createdBackup;
              Called (CreatePipeline pipelineCreate) (Returned (inl createdPipeline));
              Called (CreateStage stageCreate) (Returned (inr err))]))
  /\
  (forall createdPipeline w2 createdStage w3 err w4,
      handle (CreatePipeline pipelineCreate) w1 = (Returned (inl createdPipeline), w2) ->
      let stageCreate := stageCreateOf key database createdPipeline in
      handle (CreateStage stageCreate) w2 = (Returned (inl createdStage), w3) ->
      let taskCreate := taskCreateOf key database createdPipeline createdStage bytes in
      handle (CreateTask taskCreate) w3 = (Returned (inr err), w4) ->
      run = (Returned (Some (Errorf "failed to create task: " err)), w4,
             [createdBackup;
              Called (CreatePipeline pipelineCreate) (Returned (inl createdPipeline));
              Called (CreateStage stageCreate) (Returned (inl createdStage));
              Called (CreateTask taskCreate) (Returned (inr err))])).
Proof.
  intros Hbackup Hbytes. cbv zeta.
  rewrite (attempt_after_backup Hbackup), Hbytes. cbv zeta.
  split; [ | split ].
  - intros err w2 Hp. rewrite Hp. reflexivity.
  - intros p w2 err w3 Hp Hs. rewrite Hp, Hs. reflexivity.
  - intros p w2 st w3 err w4 Hp Hs Ht. rewrite Hp, Hs, Ht. reflexivity.
Qed.

(** C8. When the backup, the pipeline and the stage are created, the
    fourth and last call of the attempt creates a task whose name is
    the backup key, of type database backup and status pending, for the
    instance and the database of the setting's database, in the
    pipeline and the stage just created, by the system bot, and whose
    payload is the serialization of the payload that holds the id of
    the backup just created. *)
Theorem created_task_fields (w w1 w2 w3 : W) (backup : Backup.t) (bytes : string)
        (createdPipeline : Pipeline.t) (createdStage : Stage.t) :
  handle (CreateBackup backupCreate) w = (Returned (inl backup), w1) ->
  MarshalBackupPayload (Backup.ID backup) = inl bytes ->
  handle (CreatePipeline (pipelineCreateOf key)) w1 = (Returned (inl createdPipeline), w2) ->
  handle (CreateStage (stageCreateOf key database createdPipeline)) w2
  = (Returned (inl createdStage), w3) ->
  let taskCreate :=
    {| TaskCreate.Name :=
         "auto-backup-" ++ uniqueKey ++ "-" ++ itoa (BackupSetting.DatabaseId backupSetting);
       TaskCreate.PipelineId := Pipeline.ID createdPipeline;
       TaskCreate.StageId := Stage.ID createdStage;
       TaskCreate.InstanceId := Database.InstanceId database;
       TaskCreate.DatabaseId := Some (Database.ID database);
       TaskCreate.Status := TaskPending;
       TaskCreate.Type_ := TaskDatabaseBackup;
       TaskCreate.Payload := bytes;
       TaskCreate.CreatorId := SYSTEM_BOT_ID |} in
  exists r w4,
    handle (CreateTask taskCreate) w3 = (r, w4) /\
    snd (exec handle (scheduleBackupTask backupSetting uniqueKey epoch) w)
    = [Called (CreateBackup backupCreate) (Returned (inl backup));
       Called (CreatePipeline (pipelineCreateOf key)) (Returned (inl createdPipeline));
       Called (CreateStage (stageCreateOf key database createdPipeline))
         (Returned (inl createdStage));
       Called (CreateTask taskCreate) r].
Proof.
  intros Hbackup Hbytes Hp Hs taskCreate.
  destruct (handle (CreateTask taskCreate) w3) as [r w4] eqn:Ht.
  exists r, w4. split; [ reflexivity | ].
  rewrite (attempt_after_backup Hbackup), Hbytes. cbv zeta.
  rewrite Hp, Hs.
  change (taskCreateOf key database createdPipeline createdStage bytes) with taskCreate.
  rewrite Ht. reflexivity.
Qed.

End Attempt.

(** An attempt for database 42 in a store that already holds the backup
    of the bucket. *)
Lemma scheduleBackupTask_backup_creation_fails_witness :
  exec (entitystore.handle entitystore.noFault)
       (scheduleBackupTask sample.resolved "1699930800" 1699931820) sample.withBackup
  = (Returned None, sample.withBackup,
     [Called (CreateBackup (backupCreateOf sample.resolved sample.database
                                           "1699930800" 1699931820))
             (Returned (inr (Error ECONFLICT "backup already exists")))]).
Proof.
  apply (proj1 (@scheduleBackupTask_backup_creation_fails
                  sampleEnv _ (entitystore.handle entitystore.noFault)
                  sample.resolved sample.database "1699930800" 1699931820
                  eq_refl sample.withBackup sample.withBackup
                  (Error ECONFLICT "backup already exists") eq_refl)).
  reflexivity.
Defined.

(** An attempt in a store whose pipeline creation fails: the attempt
    returns the error, and the store holds the backup and no pipeline. *)
Lemma partial_creation_keeps_backup_witness :
  let run :=
    exec (entitystore.handle (sample.failing sample.isCreatePipeline))
         (scheduleBackupTask sample.resolved "1699930800" 1699931820) sample.initial in
  fst (fst run) = Returned (Some (errorString "failed to create pipeline: database is locked"))
  /\ entitystore.backups (snd (fst run)) = entitystore.backups sample.withBackup
  /\ entitystore.pipelines (snd (fst run)) = [].
Proof.
  cbv zeta.
  rewrite (proj1 (@partial_creation_keeps_backup
                    sampleEnv _ (entitystore.handle (sample.failing sample.isCreatePipeline))
                    sample.resolved sample.database "1699930800" 1699931820
                    eq_refl sample.initial sample.withBackup _ _ eq_refl eq_refl)
                 sample.internal sample.withBackup eq_refl).
  repeat split.
Defined.

(** An attempt in a store without faults: the task it creates. *)
Lemma created_task_fields_witness :
  exists r,
    last (snd (exec (entitystore.handle entitystore.noFault)
                    (scheduleBackupTask sample.resolved "1699930800" 1699931820)
                    sample.initial))
         (Did (time_Sleep 0))
    = Called (CreateTask
                {| TaskCreate.Name := "auto-backup-1699930800-42";
                   TaskCreate.PipelineId := 1;
                   TaskCreate.StageId := 1;
                   TaskCreate.InstanceId := 3;
                   TaskCreate.DatabaseId := Some 42;
                   TaskCreate.Status := TaskPending;
                   TaskCreate.Type_ := TaskDatabaseBackup;
                   TaskCreate.Payload := "{" ++ quote ++ "backupId" ++ quote ++ ":1}";
                   TaskCreate.CreatorId := 1 |}) r.
Proof.
  destruct (@created_task_fields
              sampleEnv _ (entitystore.handle entitystore.noFault)
              sample.resolved sample.database "1699930800" 1699931820
              eq_refl sample.initial _ _ _ _ _ _ _ eq_refl eq_refl eq_refl eq_refl)
    as (r & w4 & _ & Htrace).
  exists r. rewrite Htrace. reflexivity.
Defined.

(* ================================================================== *)
(** * One tick, and the loop *)
(* ================================================================== *)

Lemma launched_app (tr1 tr2 : list (Obs Call Effect)) :
  launched (tr1 ++ tr2) = (launched tr1 ++ launched tr2)%list.
Proof.
  induction tr1 as [| o tr1 IH]; [ reflexivity | ].
  destruct o as [X e r | [msg fields | bs k e | d]]; simpl; now rewrite IH.
Qed.

Lemma resolutions_app (tr1 tr2 : list (Obs Call Effect)) :
  resolutions (tr1 ++ tr2) = (resolutions tr1 ++ resolutions tr2)%list.
Proof.
  induction tr1 as [| o tr1 IH]; [ reflexivity | ].
  simpl. destruct (resolutionOf o); simpl; now rewrite IH.
Qed.

Section Tick.

Context {env : Env}.
Variable W : Type.
Variable handle : forall X : Type, Call X -> W -> Outcome X * W.

Lemma exec_forBackupSetting (uniqueKey : string) (epoch : Z) (bs : BackupSetting.t)
      (w : W) :
  exec handle (forBackupSetting uniqueKey epoch bs) w =
  match handle (ComposeDatabaseByFind (findOf bs)) w with
  | (Returned r, w') =>
      (Returned tt, w',
       [Called (ComposeDatabaseByFind (findOf bs)) (Returned r);
        Did (match r with
             | inl database => go_scheduleBackupTask (withDatabase bs database) uniqueKey epoch
             | inr err => failedToGetDatabase bs err
             end)])
  | (Panicked v, w') =>
      (Panicked v, w', [Called (ComposeDatabaseByFind (findOf bs)) (Panicked v)])
  end.
Proof.
  unfold forBackupSetting. fold (findOf bs). cbn [bind Monad_Prog bindProg call exec].
  destruct (handle (ComposeDatabaseByFind (findOf bs)) w) as [[[database | err] | v] w'];
    reflexivity.
Qed.

Lemma exec_rangeOver_cons (uniqueKey : string) (epoch : Z) (bs : BackupSetting.t)
      (l : list BackupSetting.t) (w : W) :
  exec handle (rangeOver uniqueKey epoch (bs :: l)) w =
  match exec handle (forBackupSetting uniqueKey epoch bs) w with
  | (Returned _, w', tr) =>
      let '(r, w'', tr') := exec handle (rangeOver uniqueKey epoch l) w' in
      (r, w'', (tr ++ tr')%list)
  | (Panicked v, w', tr) => (Panicked v, w', tr)
  end.
Proof.
  exact (exec_bindProg handle (forBackupSetting uniqueKey epoch bs)
           (fun _ => rangeOver uniqueKey epoch l) w).
Qed.

(** A tick whose two readings of the clock and whose query return. *)
Lemma exec_tick (w w1 w2 w3 : W) (now now' : time.Time)
      (l : list BackupSetting.t) (err : option error) :
  handle time_Now w = (Returned now, w1) ->
  handle time_Now w1 = (Returned now', w2) ->
  handle (FindBackupSettingsMatch (matchOf (bucketOf now))) w2 = (Returned (l, err), w3) ->
  exec handle tick w =
  let '(r, w', tr) :=
    exec handle (rangeOver (itoa (time.Unix (bucketOf now))) (time.Unix (time.UTC now')) l) w3 in
  (r, w',
   (Called time_Now (Returned now)
      :: Called time_Now (Returned now')
      :: Called (FindBackupSettingsMatch (matchOf (bucketOf now))) (Returned (l, err))
      :: match err with
         | Some err => [Did (l_Error "Failed to retrieve backup settings match" [zap_Error err])]
         | None => []
         end ++ tr)%list).
Proof.
  intros H1 H2 H3. unfold tick. cbn [bind Monad_Prog bindProg call exec].
  rewrite H1, H2, H3. rewrite exec_bindProg.
  destruct err as [e | ]; cbn [emit exec ret Monad_Prog];
    destruct (exec handle (rangeOver _ _ l) w3) as [[r w'] tr]; reflexivity.
Qed.

(** Whatever the services answer, an attempt the loop over the matches
    starts is for one of the matches, with its database filled in, and
    carries the unique key and the epoch of the tick. *)
Lemma launched_rangeOver (uniqueKey : string) (epoch : Z) (l : list BackupSetting.t)
      (w : W) (x : BackupSetting.t * string * Z) :
  In x (launched (snd (exec handle (rangeOver uniqueKey epoch l) w))) ->
  exists bs database, In bs l /\ x = (withDatabase bs database, uniqueKey, epoch).
Proof.
  revert w. induction l as [| bs l IH]; intros w; [ intros [] | ].
  rewrite exec_rangeOver_cons, exec_forBackupSetting.
  destruct (handle (ComposeDatabaseByFind (findOf bs)) w) as [[r | v] w'];
    [ | intros [] ].
  specialize (IH w').
  destruct (exec handle (rangeOver uniqueKey epoch l) w') as [[r' w''] tr'].
  cbn [snd] in *. rewrite launched_app.
  intros Hin. apply in_app_or in Hin. destruct Hin as [Hin | Hin].
  - destruct r as [database | err]; simpl in Hin; [ | contradiction ].
    destruct Hin as [<- | []]. exists bs, database. split; [ now left | reflexivity ].
  - destruct (IH Hin) as (bs' & database & Hbs & ->).
    exists bs', database. split; [ now right | reflexivity ].
Qed.

Lemma launched_tick (w w1 w2 w3 : W) (now now' : time.Time)
      (l : list BackupSetting.t) (err : option error)
      (x : BackupSetting.t * string * Z) :
  handle time_Now w = (Returned now, w1) ->
  handle time_Now w1 = (Returned now', w2) ->
  handle (FindBackupSettingsMatch (matchOf (bucketOf now))) w2 = (Returned (l, err), w3) ->
  In x (launched (snd (exec handle tick w))) ->
  exists bs database,
    In bs l /\
    x = (withDatabase bs database, itoa (time.Unix (bucketOf now)), time.Unix (time.UTC now')).
Proof.
  intros H1 H2 H3. rewrite (exec_tick H1 H2 H3).
  pose proof (@launched_rangeOver (itoa (time.Unix (bucketOf now)))
                                  (time.Unix (time.UTC now')) l w3 x) as Hl.
  destruct (exec handle (rangeOver _ _ l) w3) as [[r w'] tr].
  cbn [snd] in *.
  change (launched (Called time_Now (Returned now)
                      :: Called time_Now (Returned now')
                      :: Called (FindBackupSettingsMatch (matchOf (bucketOf now)))
                           (Returned (l, err))
                      :: (match err with
                          | Some err0 =>
                              [Did (l_Error "Failed to retrieve backup settings match"
                                      [zap_Error err0])]
                          | None => []
                          end ++ tr)%list))
    with (launched (match err with
                    | Some err0 =>
                        [Did (l_Error "Failed to retrieve backup settings match"
                                [zap_Error err0])]
                    | None => []
                    end ++ tr)%list).
  rewrite launched_app. destruct err; exact Hl.
Qed.

(** With resolutions that return, the loop over the matches returns;
    it has resolved every match, in order, and has started an attempt
    for each match whose resolution succeeded. *)
Lemma exec_rangeOver (uniqueKey : string) (epoch : Z) (l : list BackupSetting.t) :
  resolves handle ->
  forall w : W,
  exists w' tr,
    exec handle (rangeOver uniqueKey epoch l) w = (Returned tt, w', tr) /\
    map fst (resolutions tr) = map findOf l /\
    launched tr = expectedLaunches uniqueKey epoch l (map snd (resolutions tr)) /\
    (l = [] -> tr = []).
Proof.
  intros Hres. induction l as [| bs l IH]; intros w.
  - exists w, []. repeat split.
  - destruct (Hres (findOf bs) w) as (r & w1 & Hr).
    destruct (IH w1) as (w2 & tr & Hex & Hfind & Hlaunch & _).
    rewrite exec_rangeOver_cons, exec_forBackupSetting, Hr, Hex.
    eexists. eexists. split; [ reflexivity | ].
    destruct r as [database | err]; simpl; rewrite Hfind, Hlaunch;
      repeat split; discriminate.
Qed.

(** One round of the loop: the tick, the line the deferred function
    logs if the tick panicked, the sleep, and the rounds that follow. *)
Lemma exec_loop_S (backupRunnerInterval : time.Duration) (n : nat) (w : W) :
  exec handle (loop backupRunnerInterval (S n)) w =
  let '(rb, wb, trb) := exec handle tick w in
  let trd :=
    match rb with
    | Returned _ => []
    | Panicked r =>
        [Did (l_Error "Backup runner PANIC RECOVER"
                [zap_Error match r with
                           | PanicError err => err
                           | PanicOther v => errorString v
                           end])]
    end in
  let '(r, w', tr) := exec handle (loop backupRunnerInterval n) wb in
  (r, w', (trb ++ trd ++ Did (time_Sleep backupRunnerInterval) :: tr)%list).
Proof.
  change (loop backupRunnerInterval (S n))
    with (bindProg (Defer tick recoverTick (fun _ => Ret tt))
                   (fun _ => bindProg (emit (time_Sleep backupRunnerInterval))
                                      (fun _ => loop backupRunnerInterval n))).
  rewrite exec_bindProg. cbn [exec].
  destruct (exec handle tick w) as [[[[] | v] wb] trb]; cbn [recoverTick bind ret Monad_Prog bindProg emit exec];
    destruct (exec handle (loop backupRunnerInterval n) wb) as [[r w'] tr];
    rewrite ?app_nil_r, <- ?app_assoc; reflexivity.
Qed.

End Tick.

Lemma expectedLaunches_In (uniqueKey : string) (epoch : Z) (l : list BackupSetting.t)
      (rs : list (Database.t + error)) (i : nat) (bs : BackupSetting.t) (database : Database.t) :
  nth_error l i = Some bs ->
  nth_error rs i = Some (inl database) ->
  In (withDatabase bs database, uniqueKey, epoch) (expectedLaunches uniqueKey epoch l rs).
Proof.
  revert rs i. induction l as [| b l IH]; intros rs i Hl Hr.
  - destruct i; discriminate.
  - destruct rs as [| r rs]; [ destruct i; discriminate | ].
    destruct i as [| i]; simpl in Hl, Hr.
    + injection Hl as ->. injection Hr as ->. now left.
    + destruct r; simpl; [ right | ]; eapply IH; eassumption.
Qed.

Lemma expectedLaunches_inv (uniqueKey : string) (epoch : Z) (l : list BackupSetting.t)
      (rs : list (Database.t + error)) (x : BackupSetting.t * string * Z) :
  In x (expectedLaunches uniqueKey epoch l rs) ->
  exists (i : nat) (bs : BackupSetting.t) (database : Database.t),
    nth_error l i = Some bs /\
    nth_error rs i = Some (inl database) /\
    x = (withDatabase bs database, uniqueKey, epoch).
Proof.
  revert rs. induction l as [| b l IH]; intros rs Hin; [ contradiction | ].
  destruct rs as [| [database | err] rs]; simpl in Hin; [ contradiction | | ].
  - destruct Hin as [<- | Hin].
    + exists 0%nat, b, database. repeat split.
    + destruct (IH _ Hin) as (i & bs & d & Hl & Hr & ->).
      exists (S i), bs, d. repeat split; assumption.
  - destruct (IH _ Hin) as (i & bs & d & Hl & Hr & ->).
    exists (S i), bs, d. repeat split; assumption.
Qed.

Lemma backupComment_inj (database : Database.t) (e1 e2 : Z) :
  backupComment database e1 = backupComment database e2 -> e1 = e2.
Proof.
  unfold backupComment. intros H.
  do 3 apply append_inv_head in H. now apply itoa_inj.
Qed.

Section TickClaims.

Context {env : Env}.
Variable W : Type.
Variable handle : forall X : Type, Call X -> W -> Outcome X * W.

(** C3, as the code has it. The attempts of a tick carry the Unix time
    of the second reading of the clock, which is not truncated to the
    bucket. The path of such an attempt is: for the empty template, the
    environment name, the database name and that time, joined by
    dashes, followed by [.sql]; for a template that is not empty, the
    template with each placeholder replaced by that time and its other
    parts (the placeholder-free pieces it consists of) unchanged. *)
Theorem path_from_tick_epoch (w w1 w2 w3 : W) (now now' : time.Time)
        (l : list BackupSetting.t) (err : option error) :
  handle time_Now w = (Returned now, w1) ->
  handle time_Now w1 = (Returned now', w2) ->
  handle (FindBackupSettingsMatch (matchOf (bucketOf now))) w2 = (Returned (l, err), w3) ->
  forall (backupSetting : BackupSetting.t) (uniqueKey : string) (epoch : Z),
    In (backupSetting, uniqueKey, epoch) (launched (snd (exec handle tick w))) ->
    exists database,
      BackupSetting.Database backupSetting = Some database /\
      epoch = time.Unix (time.UTC now') /\
      let path := BackupCreate.Path (backupCreateOf backupSetting database uniqueKey epoch) in
      (BackupSetting.PathTemplate backupSetting = "" ->
       path = Environment.Name (Instance.Environment (Database.Instance database))
              ++ "-" ++ Database.Name database ++ "-" ++ itoa (time.Unix now') ++ ".sql")
      /\
      (BackupSetting.PathTemplate backupSetting <> "" ->
       (exists pieces : list string,
           BackupSetting.PathTemplate backupSetting = strings.Join pieces "{{TIME}}" /\
           Forall (fun p => strings.Contains p "{{TIME}}" = false) pieces) /\
       forall pieces : list string,
         BackupSetting.PathTemplate backupSetting = strings.Join pieces "{{TIME}}" ->
         Forall (fun p => strings.Contains p "{{TIME}}" = false) pieces ->
         path = strings.Join pieces (itoa (time.Unix now'))).
Proof.
  intros H1 H2 H3 backupSetting uniqueKey epoch Hin.
  destruct (@launched_tick _ _ handle _ _ _ _ _ _ _ _ _ H1 H2 H3 Hin) as (bs & database & _ & Hx).
  injection Hx as -> -> ->.
  exists database. split; [ reflexivity | ]. split; [ reflexivity | ].
  cbn [backupCreateOf BackupCreate.Path]. unfold backupPath, time.UTC.
  cbn [withDatabase BackupSetting.PathTemplate].
  destruct (String.eqb_spec (BackupSetting.PathTemplate bs) "") as [Hempty | Hfull];
    cbn [negb]; split; try congruence.
  - intros _. reflexivity.
  - intros _. split; [ apply template_pieces | ].
    intros pieces -> Hpieces. now apply ReplaceAll_Join.
Qed.

(** C4, as the code has it. Two attempts for the same setting and
    database, started by two ticks: if the first readings of the clock
    are in the same bucket, the two backups have the same name; if the
    second readings show the same Unix second, they have the same path
    and the same comment; if those seconds differ, the comments
    differ, be the ticks in one bucket or not. *)
Theorem path_and_comment_by_epoch
        (w w1 w2 w3 : W) (now1 now1' : time.Time) (l1 : list BackupSetting.t)
        (err1 : option error)
        (v v1 v2 v3 : W) (now2 now2' : time.Time) (l2 : list BackupSetting.t)
        (err2 : option error) :
  handle time_Now w = (Returned now1, w1) ->
  handle time_Now w1 = (Returned now1', w2) ->
  handle (FindBackupSettingsMatch (matchOf (bucketOf now1))) w2 = (Returned (l1, err1), w3) ->
  handle time_Now v = (Returned now2, v1) ->
  handle time_Now v1 = (Returned now2', v2) ->
  handle (FindBackupSettingsMatch (matchOf (bucketOf now2))) v2 = (Returned (l2, err2), v3) ->
  forall (backupSetting : BackupSetting.t) (database : Database.t)
         (key1 key2 : string) (epoch1 epoch2 : Z),
    In (backupSetting, key1, epoch1) (launched (snd (exec handle tick w))) ->
    In (backupSetting, key2, epoch2) (launched (snd (exec handle tick v))) ->
    BackupSetting.Database backupSetting = Some database ->
    let create1 := backupCreateOf backupSetting database key1 epoch1 in
    let create2 := backupCreateOf backupSetting database key2 epoch2 in
    (now1 / time.Hour = now2 / time.Hour ->
     BackupCreate.Name create1 = BackupCreate.Name create2)
    /\
    (time.Unix now1' = time.Unix now2' ->
     BackupCreate.Path create1 = BackupCreate.Path create2 /\
     BackupCreate.Comment create1 = BackupCreate.Comment create2)
    /\
    (time.Unix now1' <> time.Unix now2' ->
     BackupCreate.Comment create1 <> BackupCreate.Comment create2).
Proof.
  intros H1 H2 H3 G1 G2 G3 backupSetting database key1 key2 epoch1 epoch2 Hin1 Hin2 _.
  destruct (@launched_tick _ _ handle _ _ _ _ _ _ _ _ _ H1 H2 H3 Hin1) as (bs1 & d1 & _ & Hx1).
  destruct (@launched_tick _ _ handle _ _ _ _ _ _ _ _ _ G1 G2 G3 Hin2) as (bs2 & d2 & _ & Hx2).
  injection Hx1 as _ -> ->. injection Hx2 as _ -> ->.
  unfold time.UTC. cbn [backupCreateOf BackupCreate.Name BackupCreate.Path BackupCreate.Comment].
  split; [ | split ].
  - intros Hbucket. apply bucketOf_eq in Hbucket. now rewrite Hbucket.
  - intros ->. split; reflexivity.
  - intros Hne Heq. apply Hne. exact (backupComment_inj Heq).
Qed.

(** C6. In a tick whose resolutions return, with a database or with an
    error, the loop over the matches ends normally; every match is
    resolved, in the order of the list, also after a resolution has
    failed; and the attempts started are those of the matches whose
    resolution succeeded, each with its database, in the same order, and
    no others. A match whose resolution succeeded is thus started
    whatever the resolutions of the other matches gave, and a match whose
    resolution failed is passed over. *)
Theorem resolution_failure_skips_one_match (w w1 w2 w3 : W) (now now' : time.Time)
        (l : list BackupSetting.t) (err : option error) :
  handle time_Now w = (Returned now, w1) ->
  handle time_Now w1 = (Returned now', w2) ->
  handle (FindBackupSettingsMatch (matchOf (bucketOf now))) w2 = (Returned (l, err), w3) ->
  resolves handle ->
  let uniqueKey := itoa (time.Unix (bucketOf now)) in
  let epoch := time.Unix (time.UTC now') in
  exists w' tr,
    exec handle tick w = (Returned tt, w', tr) /\
    map fst (resolutions tr) = map findOf l /\
    launched tr = expectedLaunches uniqueKey epoch l (map snd (resolutions tr)) /\
    (forall (i : nat) (backupSetting : BackupSetting.t) (database : Database.t),
        nth_error l i = Some backupSetting ->
        nth_error (map snd (resolutions tr)) i = Some (inl database) ->
        In (withDatabase backupSetting database, uniqueKey, epoch) (launched tr)) /\
    (forall x : BackupSetting.t * string * Z,
        In x (launched tr) ->
        exists (i : nat) (backupSetting : BackupSetting.t) (database : Database.t),
          nth_error l i = Some backupSetting /\
          nth_error (map snd (resolutions tr)) i = Some (inl database) /\
          x = (withDatabase backupSetting database, uniqueKey, epoch)).
Proof.
  intros H1 H2 H3 Hres uniqueKey epoch.
  destruct (@exec_rangeOver _ _ handle uniqueKey epoch l Hres w3) as (w' & tr & Hex & Hfind & Hl & _).
  rewrite (@exec_tick _ _ handle _ _ _ _ _ _ _ _ H1 H2 H3). fold uniqueKey epoch. rewrite Hex.
  eexists. eexists. split; [ reflexivity | ].
  assert (Hr : resolutions
                 (Called time_Now (Returned now)
                    :: Called time_Now (Returned now')
                    :: Called (FindBackupSettingsMatch (matchOf (bucketOf now)))
                         (Returned (l, err))
                    :: match err with
                       | Some err0 =>
                           [Did (l_Error "Failed to retrieve backup settings match"
                                   [zap_Error err0])]
                       | None => []
                       end ++ tr)%list
               = resolutions tr) by (destruct err; reflexivity).
  assert (Hla : launched
                  (Called time_Now (Returned now)
                     :: Called time_Now (Returned now')
                     :: Called (FindBackupSettingsMatch (matchOf (bucketOf now)))
                          (Returned (l, err))
                     :: match err with
                        | Some err0 =>
                            [Did (l_Error "Failed to retrieve backup settings match"
                                    [zap_Error err0])]
                        | None => []
                        end ++ tr)%list
                = launched tr) by (destruct err; reflexivity).
  rewrite Hr, Hla, <- Hl.
  split; [ exact Hfind | ]. split; [ reflexivity | ].
    split.
    - intros i bs database Hi Hd. rewrite Hl. now apply expectedLaunches_In with (i := i).
    - intros x Hx. rewrite Hl in Hx. exact (expectedLaunches_inv _ _ _ _ _ Hx).
Qed.


End TickClaims.

(** A tick at 03:17:00 on a Tuesday for the setting of database 42,
    which has a template: the path holds the time of the tick. *)
Lemma path_from_tick_epoch_witness :
  BackupCreate.Path (backupCreateOf sample.resolved sample.database "1699930800" 1699931820)
  = strings.Join ["/b/"; ".sql"] "1699931820".
Proof.
  destruct (@path_from_tick_epoch
              sampleEnv _ (entitystore.handle entitystore.noFault)
              sample.initial sample.initial sample.initial sample.initial
              sample.now sample.now [sample.staleSetting; sample.setting] None
              eq_refl eq_refl eq_refl
              sample.resolved "1699930800" 1699931820 (or_introl eq_refl))
    as (database & Hdatabase & _ & _ & Hpath).
  injection Hdatabase as <-.
  apply (proj2 (Hpath ltac:(discriminate)) ["/b/"; ".sql"] eq_refl).
  repeat constructor.
Defined.

(** C3 as stated fails: at 03:17:00 the bucket's epoch is 1699930800
    (03:00:00), and the path of the attempt the tick starts holds
    1699931820. *)
Lemma path_not_from_bucket_epoch :
  launched (snd (exec (entitystore.handle entitystore.noFault) tick sample.initial))
  = [(sample.resolved, "1699930800", 1699931820)]
  /\ time.Unix (bucketOf sample.now) = 1699930800
  /\ BackupCreate.Path (backupCreateOf sample.resolved sample.database "1699930800" 1699931820)
     = "/b/1699931820.sql"
  /\ BackupCreate.Path (backupCreateOf sample.resolved sample.database "1699930800" 1699931820)
     <> strings.ReplaceAll (BackupSetting.PathTemplate sample.resolved) "{{TIME}}"
          (itoa (time.Unix (bucketOf sample.now))).
Proof.
  repeat split. vm_compute. discriminate.
Qed.

(** Two ticks one second apart in the same bucket. *)
Lemma path_and_comment_by_epoch_witness :
  BackupCreate.Name (backupCreateOf sample.resolved sample.database "1699930800" 1699931820)
  = BackupCreate.Name (backupCreateOf sample.resolved sample.database "1699930800" 1699931821)
  /\ BackupCreate.Comment (backupCreateOf sample.resolved sample.database "1699930800" 1699931820)
     <> BackupCreate.Comment (backupCreateOf sample.resolved sample.database "1699930800" 1699931821).
Proof.
  destruct (@path_and_comment_by_epoch
              sampleEnv _ (entitystore.handle entitystore.noFault)
              sample.initial sample.initial sample.initial sample.initial
              sample.now sample.now [sample.staleSetting; sample.setting] None
              (sample.initialAt sample.later) (sample.initialAt sample.later)
              (sample.initialAt sample.later) (sample.initialAt sample.later)
              sample.later sample.later [sample.staleSetting; sample.setting] None
              eq_refl eq_refl eq_refl eq_refl eq_refl eq_refl
              sample.resolved sample.database "1699930800" "1699930800"
              1699931820 1699931821 (or_introl eq_refl) (or_introl eq_refl) eq_refl)
    as (Hname & _ & Hcomment).
  split; [ apply Hname; reflexivity | apply Hcomment; discriminate ].
Defined.

(** C4 as stated fails: the ticks at 03:17:00 and at 03:17:01 are in the
    same bucket, and the attempts they start for the same setting and
    database differ in path and in comment. *)
Lemma path_and_comment_vary_within_bucket :
  bucketOf sample.now = bucketOf sample.later
  /\ launched (snd (exec (entitystore.handle entitystore.noFault) tick
                         (sample.initialAt sample.now)))
     = [(sample.resolved, "1699930800", 1699931820)]
  /\ launched (snd (exec (entitystore.handle entitystore.noFault) tick
                         (sample.initialAt sample.later)))
     = [(sample.resolved, "1699930800", 1699931821)]
  /\ BackupCreate.Path (backupCreateOf sample.resolved sample.database "1699930800" 1699931820)
     <> BackupCreate.Path (backupCreateOf sample.resolved sample.database "1699930800" 1699931821)
  /\ BackupCreate.Comment (backupCreateOf sample.resolved sample.database "1699930800" 1699931820)
     <> BackupCreate.Comment (backupCreateOf sample.resolved sample.database "1699930800" 1699931821).
Proof.
  repeat split; vm_compute; discriminate.
Qed.

Lemma noFault_resolves : resolves (entitystore.handle entitystore.noFault).
Proof.
  intros find w. exists (entitystore.composeDatabaseByFind w find), w. reflexivity.
Qed.

(** A tick with two matches, the first for a database that is gone: the
    second match is started. *)
Lemma resolution_failure_skips_one_match_witness :
  launched (snd (exec (entitystore.handle entitystore.noFault) tick sample.initial))
  = [(sample.resolved, "1699930800", 1699931820)].
Proof.
  destruct (@resolution_failure_skips_one_match
              sampleEnv _ (entitystore.handle entitystore.noFault)
              sample.initial sample.initial sample.initial sample.initial
              sample.now sample.now [sample.staleSetting; sample.setting] None
              eq_refl eq_refl eq_refl noFault_resolves)
    as (w' & tr & Hex & _ & Hlaunched & _).
  rewrite Hex in *. cbn [snd]. rewrite Hlaunched.
  injection Hex as _ <-. reflexivity.
Defined.



(* ================================================================== *)
(** * The match resolver over the entity store *)
(* ================================================================== *)

Lemma readClock_settings (w : entitystore.Store) :
  entitystore.settings (snd (entitystore.readClock w)) = entitystore.settings w.
Proof.
  unfold entitystore.readClock.
  destruct (entitystore.clock w) as [| t [| t' rest]]; reflexivity.
Qed.

Lemma handle_noFault_Now (w : entitystore.Store) :
  entitystore.handle entitystore.noFault time_Now w
  = (Returned (fst (entitystore.readClock w)), snd (entitystore.readClock w)).
Proof.
  unfold entitystore.handle, entitystore.noFault, entitystore.serve.
  destruct (entitystore.readClock w); reflexivity.
Qed.

(** C5. A tick over the entity store: the bucket is the start of the
    hour of the current time; the query asks for the hour of the day and
    the day of the week of the bucket, and the settings the tick goes
    through are exactly the stored ones with that hour and that day; the
    tick ends normally, and with an empty selection it does nothing
    more. *)
Theorem match_resolver_selects_bucket `{Env} (w : entitystore.Store) :
  let now := fst (entitystore.readClock w) in
  let t := bucketOf now in
  let m := {| BackupSettingsMatch.Hour := time.HourOf t;
              BackupSettingsMatch.DayOfWeek := time.Weekday t |} in
  (t mod time.Hour = 0 /\ t <= now < t + time.Hour)
  /\ exists now' l w' tr,
      exec (entitystore.handle entitystore.noFault) tick w
      = (Returned tt, w',
         Called time_Now (Returned now)
           :: Called time_Now (Returned now')
           :: Called (FindBackupSettingsMatch m) (Returned (l, None))
           :: tr)
      /\ (forall bs : BackupSetting.t,
             In bs l <->
             In bs (entitystore.settings w) /\
             BackupSetting.Hour bs = time.HourOf t /\
             BackupSetting.DayOfWeek bs = time.Weekday t)
      /\ (l = [] -> tr = []).
Proof.
  intros now t m. split; [ apply bucketOf_bounds | ].
  set (w1 := snd (entitystore.readClock w)).
  set (now' := fst (entitystore.readClock w1)).
  set (w2 := snd (entitystore.readClock w1)).
  set (l := entitystore.findBackupSettingsMatch w2 m).
  destruct (@exec_rangeOver _ _ (entitystore.handle entitystore.noFault)
              (itoa (time.Unix t)) (time.Unix (time.UTC now')) l noFault_resolves w2)
    as (w' & tr & Hex & _ & _ & Hnil).
  exists now', l, w', tr. split; [ | split ].
  - rewrite (@exec_tick _ _ (entitystore.handle entitystore.noFault)
               w w1 w2 w2 now now' l None
               (handle_noFault_Now w) (handle_noFault_Now w1) eq_refl).
    fold t. rewrite Hex. reflexivity.
  - intros bs. unfold l, entitystore.findBackupSettingsMatch.
    rewrite filter_In, andb_true_iff, !Z.eqb_eq.
    unfold w2, w1. rewrite !readClock_settings. reflexivity.
  - exact Hnil.
Qed.

(* ================================================================== *)
(** * Looking up one project *)
(* ================================================================== *)

Section FindProject.

Import store.

Context {env : Env}.
Variable W : Type.
Variable handle : forall X : Type, store.Call X -> W -> Outcome X * W.

Lemma scanAll_inl (found acc : list Project.t) :
  scanAll (map inl found) acc = inl (acc ++ found)%list.
Proof.
  revert acc. induction found as [| p found IH]; intros acc; simpl.
  - now rewrite app_nil_r.
  - rewrite IH, <- app_assoc. reflexivity.
Qed.

Lemma exec_findProjectList (tx : Tx) (find : ProjectFind.t) (w w' : W) (rows : Rows)
      (found : list Project.t) :
  handle (queryOf tx find) w = (Returned (inl rows), w') ->
  scans rows = map inl found ->
  rowsErr rows = None ->
  exec handle (findProjectList tx find) w
  = (Returned (inl found), w',
     [Called (queryOf tx find) (Returned (inl rows)); Did rows_Close]).
Proof.
  intros Hq Hscans Herr. unfold findProjectList, queryOf in *.
  destruct (whereOf find) as [where_ args]. cbn [fst snd] in Hq.
  cbn [bind Monad_Prog bindProg call exec]. rewrite Hq.
  cbn [bind ret Monad_Prog bindProg call exec].
  rewrite Hscans, scanAll_inl, Herr. reflexivity.
Qed.

(** C10, as the code has it. When the transaction opens and the query
    returns rows that all scan: with no row, [FindProject] returns the
    not-found error; with more than one row, it logs a warning and
    returns the first row, with a nil error; with one row, it returns
    that row. *)
Theorem FindProject_none_or_many (find : ProjectFind.t) (w w1 w2 : W) (tx : Tx)
        (rows : Rows) (found : list Project.t) :
  handle BeginTx w = (Returned (inl tx), w1) ->
  handle (queryOf tx find) w1 = (Returned (inl rows), w2) ->
  scans rows = map inl found ->
  rowsErr rows = None ->
  let run := exec handle (FindProject find) w in
  let calls :=
    [Called BeginTx (Returned (inl tx));
     Called (queryOf tx find) (Returned (inl rows));
     Did rows_Close] in
  (found = [] ->
   run = (Returned (inr (Error ENOTFOUND ("project not found: " ++ SprintFind find))),
          w2, (calls ++ [Did (tx_Rollback tx)])%list))
  /\
  (forall first second rest,
      found = first :: second :: rest ->
      run = (Returned (inl first), w2,
             (calls ++
              [Did (l_Warn ("found mulitple projects: "
                            ++ itoa (Z.of_nat (List.length found)) ++ ", expect 1"));
               Did (tx_Rollback tx)])%list))
  /\
  (forall only,
      found = [only] ->
      run = (Returned (inl only), w2, (calls ++ [Did (tx_Rollback tx)])%list)).
Proof.
  intros Hbegin Hq Hscans Herr. cbv zeta.
  unfold FindProject. cbn [bind Monad_Prog bindProg call exec]. rewrite Hbegin.
  cbn [bind Monad_Prog bindProg call exec].
  rewrite exec_bindProg, exec_findProjectList with (1 := Hq) (2 := Hscans) (3 := Herr).
  split; [ | split ].
  - intros ->. reflexivity.
  - intros first second rest ->. reflexivity.
  - intros only ->. reflexivity.
Qed.

End FindProject.

(** A lookup in a database that answers with two projects. *)
Lemma FindProject_none_or_many_witness :
  fst (fst (exec (sample.answering [sample.project 1 "a"; sample.project 2 "b"])
                 (store.FindProject sample.anyProject) tt))
  = Returned (inl (sample.project 1 "a")).
Proof.
  rewrite (proj1 (proj2 (@FindProject_none_or_many
                           sampleEnv _
                           (sample.answering [sample.project 1 "a"; sample.project 2 "b"])
                           sample.anyProject tt tt tt 1 _
                           [sample.project 1 "a"; sample.project 2 "b"]
                           eq_refl eq_refl eq_refl eq_refl))
                 _ _ _ eq_refl).
  reflexivity.
Defined.

(** C10 as stated fails: with two matching records [FindProject] does
    not return an error; it returns the first record and a nil error,
    after the warning. *)
Lemma FindProject_many_is_not_an_error :
  let run :=
    exec (sample.answering [sample.project 1 "a"; sample.project 2 "b"])
         (store.FindProject sample.anyProject) tt in
  fst (fst run) = Returned (inl (sample.project 1 "a"))
  /\ (forall err : error, fst (fst run) <> Returned (inr err))
  /\ In (Did (store.l_Warn "found mulitple projects: 2, expect 1")) (snd run).
Proof.
  cbv zeta. split; [ reflexivity | ]. split.
  - intros err. vm_compute. discriminate.
  - vm_compute. right. right. right. left. reflexivity.
Qed.

(* ================================================================== *)
(** * More on one scheduling attempt *)
(* ================================================================== *)

Section AttemptMore.

Context {env : Env}.
Variable W : Type.
Variable handle : forall X : Type, Call X -> W -> Outcome X * W.
Variables (backupSetting : BackupSetting.t) (database : Database.t).
Variables (uniqueKey : string) (epoch : Z).
Hypothesis Hdatabase : BackupSetting.Database backupSetting = Some database.

Let key := backupKey uniqueKey (BackupSetting.DatabaseId backupSetting).
Let backupCreate := backupCreateOf backupSetting database uniqueKey epoch.

(** X1. When the four creations succeed, [scheduleBackupTask] returns
    nil after exactly these four calls, in the order backup, pipeline,
    stage, task, each later request built from what the earlier ones
    returned. *)
Theorem attempt_creates_chain (w w1 w2 w3 w4 : W) (backup : Backup.t) (bytes : string)
        (createdPipeline : Pipeline.t) (createdStage : Stage.t) (createdTask : Task.t) :
  handle (CreateBackup backupCreate) w = (Returned (inl backup), w1) ->
  MarshalBackupPayload (Backup.ID backup) = inl bytes ->
  handle (CreatePipeline (pipelineCreateOf key)) w1 = (Returned (inl createdPipeline), w2) ->
  handle (CreateStage (stageCreateOf key database createdPipeline)) w2
  = (Returned (inl createdStage), w3) ->
  handle (CreateTask (taskCreateOf key database createdPipeline createdStage bytes)) w3
  = (Returned (inl createdTask), w4) ->
  exec handle (scheduleBackupTask backupSetting uniqueKey epoch) w
  = (Returned None, w4,
     [Called (CreateBackup backupCreate) (Returned (inl backup));
      Called (CreatePipeline (pipelineCreateOf key)) (Returned (inl createdPipeline));
      Called (CreateStage (stageCreateOf key database createdPipeline))
        (Returned (inl createdStage));
      Called (CreateTask (taskCreateOf key database createdPipeline createdStage bytes))
        (Returned (inl createdTask))]).
Proof.
  intros Hb Hm Hp Hs Ht.
  rewrite (@attempt_after_backup _ _ handle _ _ uniqueKey epoch Hdatabase _ _ _ Hb), Hm.
  cbv zeta. fold key. rewrite Hp, Hs, Ht. reflexivity.
Qed.

(** X2. When the payload of the task cannot be serialized,
    [scheduleBackupTask] returns an error after the creation of the
    backup alone: the backup stays, and no pipeline, stage or task is
    asked for. *)
Theorem attempt_payload_fails (w w1 : W) (backup : Backup.t) (err : error) :
  handle (CreateBackup backupCreate) w = (Returned (inl backup), w1) ->
  MarshalBackupPayload (Backup.ID backup) = inr err ->
  exec handle (scheduleBackupTask backupSetting uniqueKey epoch) w
  = (Returned (Some (Errorf "failed to create task payload: " err)), w1,
     [Called (CreateBackup backupCreate) (Returned (inl backup))]).
Proof.
  intros Hb Hm.
  rewrite (@attempt_after_backup _ _ handle _ _ uniqueKey epoch Hdatabase _ _ _ Hb), Hm.
  reflexivity.
Qed.

(** X3. Whatever the services answer (results, errors or panics), what
    an attempt does is between one and four calls, each the request to
    create an entity named by the backup key and created by the system
    bot, in the order backup, pipeline, stage, task without a gap; it
    logs nothing, reads no clock and starts nothing. *)
Theorem attempt_calls_in_order (w : W) :
  let tr := snd (exec handle (scheduleBackupTask backupSetting uniqueKey epoch) w) in
  Forall (fun o => observe.creationOf o = Some (key, SYSTEM_BOT_ID)) tr
  /\ map observe.stepOf tr
     = firstn (List.length tr) [Some 0%nat; Some 1%nat; Some 2%nat; Some 3%nat]
  /\ (1 <= List.length tr <= 4)%nat.
Proof.
  cbv zeta.
  destruct (handle (CreateBackup backupCreate) w) as [[[backup | err] | v] w1] eqn:Hb.
  - rewrite (@attempt_after_backup _ _ handle _ _ uniqueKey epoch Hdatabase _ _ _ Hb).
    fold key.
    destruct (MarshalBackupPayload (Backup.ID backup)) as [bytes | err].
    + cbv zeta.
      destruct (handle (CreatePipeline (pipelineCreateOf key)) w1) as [[[p | err] | v] w2].
      * destruct (handle (CreateStage (stageCreateOf key database p)) w2)
          as [[[st | err] | v] w3].
        -- destruct (handle (CreateTask (taskCreateOf key database p st bytes)) w3)
             as [r w4].
           cbn [snd]. repeat split; repeat constructor.
        -- cbn [snd]. repeat split; repeat constructor.
        -- cbn [snd]. repeat split; repeat constructor.
      * cbn [snd]. repeat split; repeat constructor.
      * cbn [snd]. repeat split; repeat constructor.
    + cbn [snd]. repeat split; repeat constructor.
  - rewrite (@attempt_backup_fails _ _ handle _ _ uniqueKey epoch Hdatabase _ _ _ Hb).
    cbn [snd]. repeat split; repeat constructor.
  - unfold scheduleBackupTask. rewrite Hdatabase. fold backupCreate.
    cbn [bind Monad_Prog bindProg call exec]. rewrite Hb.
    cbn [snd]. repeat split; repeat constructor.
Qed.

(** X5. The function a tick starts for an attempt: when the backup
    exists already (conflict), it ends without a log line; when the
    creation of the backup fails otherwise, it logs one line, with the id
    of the setting, the id of the database and the text of the error;
    when the creation panics, so does the function: it recovers
    nothing. *)
Theorem goroutine_logs_failures (w w' : W) :
  let run := exec handle (scheduleBackupTaskGoroutine backupSetting uniqueKey epoch) w in
  (forall err,
      handle (CreateBackup backupCreate) w = (Returned (inr err), w') ->
      ErrorCode err = ECONFLICT ->
      run = (Returned tt, w', [Called (CreateBackup backupCreate) (Returned (inr err))]))
  /\
  (forall err,
      handle (CreateBackup backupCreate) w = (Returned (inr err), w') ->
      ErrorCode err <> ECONFLICT ->
      run = (Returned tt, w',
             [Called (CreateBackup backupCreate) (Returned (inr err));
              Did (l_Error "Failed to create automatic backup for database"
                     [zap_Int "id" (BackupSetting.ID backupSetting);
                      zap_String "databaseID" (itoa (BackupSetting.DatabaseId backupSetting));
                      zap_String "error"
                        (ErrorText (Errorf "failed to create backup: " err))])]))
  /\
  (forall v,
      handle (CreateBackup backupCreate) w = (Panicked v, w') ->
      run = (Panicked v, w', [Called (CreateBackup backupCreate) (Panicked v)])).
Proof.
  cbv zeta. unfold scheduleBackupTaskGoroutine. cbn [bind Monad_Prog].
  split; [ | split ].
  - intros err Hb Hcode.
    rewrite exec_bindProg,
      (@attempt_backup_fails _ _ handle _ _ uniqueKey epoch Hdatabase _ _ _ Hb), Hcode.
    reflexivity.
  - intros err Hb Hcode.
    rewrite exec_bindProg,
      (@attempt_backup_fails _ _ handle _ _ uniqueKey epoch Hdatabase _ _ _ Hb).
    destruct (ErrorCode err); [ congruence | reflexivity | reflexivity ].
  - intros v Hb. rewrite exec_bindProg. unfold scheduleBackupTask. rewrite Hdatabase.
    fold backupCreate. cbn [bind Monad_Prog bindProg call exec]. rewrite Hb. reflexivity.
Qed.

End AttemptMore.

(** An attempt for database 42 in the sample store. *)
Lemma attempt_creates_chain_witness :
  fst (fst (exec (entitystore.handle entitystore.noFault)
                 (scheduleBackupTask sample.resolved "1699930800" 1699931820)
                 sample.initial))
  = Returned None.
Proof.
  rewrite (@attempt_creates_chain
             sampleEnv _ (entitystore.handle entitystore.noFault)
             sample.resolved sample.database "1699930800" 1699931820
             eq_refl sample.initial _ _ _ _ _ _ _ _ _
             eq_refl eq_refl eq_refl eq_refl eq_refl).
  reflexivity.
Defined.

(** The same attempt where the payload cannot be serialized. *)
Lemma attempt_payload_fails_witness :
  entitystore.pipelines
    (snd (fst (exec (entitystore.handle entitystore.noFault)
                    (@scheduleBackupTask fixtures.unmarshallable
                       sample.resolved "1699930800" 1699931820)
                    sample.initial)))
  = [].
Proof.
  rewrite (@attempt_payload_fails
             fixtures.unmarshallable _ (entitystore.handle entitystore.noFault)
             sample.resolved sample.database "1699930800" 1699931820
             eq_refl sample.initial _ _ (errorString "unsupported value")
             eq_refl eq_refl).
  reflexivity.
Defined.

(** The same attempt where the creation of the pipeline fails: two
    calls. *)
Lemma attempt_calls_in_order_witness :
  map observe.stepOf
      (snd (exec (entitystore.handle (sample.failing sample.isCreatePipeline))
                 (scheduleBackupTask sample.resolved "1699930800" 1699931820)
                 sample.initial))
  = [Some 0%nat; Some 1%nat].
Proof.
  rewrite (proj1 (proj2 (@attempt_calls_in_order
                           sampleEnv _
                           (entitystore.handle (sample.failing sample.isCreatePipeline))
                           sample.resolved sample.database "1699930800" 1699931820
                           eq_refl sample.initial))).
  reflexivity.
Defined.

(** The function of an attempt in a store that holds the backup
    already, and in one whose backup creation fails. *)
Lemma goroutine_logs_failures_witness :
  observe.effects
    (snd (exec (entitystore.handle entitystore.noFault)
               (scheduleBackupTaskGoroutine sample.resolved "1699930800" 1699931820)
               sample.withBackup))
  = []
  /\ List.length
       (observe.effects
          (snd (exec (entitystore.handle (sample.failing fixtures.isCreateBackup))
                     (scheduleBackupTaskGoroutine sample.resolved "1699930800" 1699931820)
                     sample.initial)))
     = 1%nat.
Proof.
  split.
  - rewrite (proj1 (@goroutine_logs_failures
                      sampleEnv _ (entitystore.handle entitystore.noFault)
                      sample.resolved sample.database "1699930800" 1699931820
                      eq_refl sample.withBackup sample.withBackup)
                   (Error ECONFLICT "backup already exists") eq_refl eq_refl).
    reflexivity.
  - rewrite (proj1 (proj2 (@goroutine_logs_failures
                             sampleEnv _
                             (entitystore.handle (sample.failing fixtures.isCreateBackup))
                             sample.resolved sample.database "1699930800" 1699931820
                             eq_refl sample.initial sample.initial))
                   sample.internal eq_refl ltac:(discriminate)).
    reflexivity.
Defined.

(* ================================================================== *)
(** * More on the tick and the loop *)
(* ================================================================== *)

Lemma sleeps_app (tr1 tr2 : list (Obs Call Effect)) :
  observe.sleeps (tr1 ++ tr2) = (observe.sleeps tr1 ++ observe.sleeps tr2)%list.
Proof.
  induction tr1 as [| o tr1 IH]; [ reflexivity | ].
  destruct o as [X e r | [msg fields | bs k e | d]]; simpl; now rewrite IH.
Qed.

Section TickMore.

Context {env : Env}.
Variable W : Type.
Variable handle : forall X : Type, Call X -> W -> Outcome X * W.

Lemma rangeOver_quiet (uniqueKey : string) (epoch : Z) (l : list BackupSetting.t) (w : W) :
  observe.sleeps (snd (exec handle (rangeOver uniqueKey epoch l) w)) = [].
Proof.
  revert w. induction l as [| bs l IH]; intros w; [ reflexivity | ].
  rewrite exec_rangeOver_cons, exec_forBackupSetting.
  destruct (handle (ComposeDatabaseByFind (findOf bs)) w) as [[r | v] w']; [ | reflexivity ].
  specialize (IH w').
  destruct (exec handle (rangeOver uniqueKey epoch l) w') as [[r' w''] tr'].
  cbn [snd] in *. rewrite sleeps_app, IH. destruct r; reflexivity.
Qed.

Lemma tick_quiet (w : W) : observe.sleeps (snd (exec handle tick w)) = [].
Proof.
  unfold tick. cbn [bind Monad_Prog bindProg call exec].
  destruct (handle time_Now w) as [[now | v] w1]; [ | reflexivity ].
  cbn [bind Monad_Prog bindProg call exec].
  destruct (handle time_Now w1) as [[now' | v] w2]; [ | reflexivity ].
  cbn [bind Monad_Prog bindProg call exec].
  destruct (handle (FindBackupSettingsMatch (matchOf (bucketOf now))) w2)
    as [[[l err] | v] w3]; [ | reflexivity ].
  rewrite exec_bindProg.
  pose proof (rangeOver_quiet (itoa (time.Unix (bucketOf now)))
                              (time.Unix (time.UTC now')) l w3) as Hq.
  destruct err as [e | ]; cbn [emit exec ret Monad_Prog];
    destruct (exec handle (rangeOver _ _ l) w3) as [[r w'] tr];
    cbn [snd observe.sleeps] in *; exact Hq.
Qed.

(** Whatever the services answer, an attempt a tick starts has its
    database filled in. *)
Lemma launched_tick_any (w : W) (x : BackupSetting.t * string * Z) :
  In x (launched (snd (exec handle tick w))) ->
  exists bs database uniqueKey epoch, x = (withDatabase bs database, uniqueKey, epoch).
Proof.
  unfold tick. cbn [bind Monad_Prog bindProg call exec].
  destruct (handle time_Now w) as [[now | v] w1]; [ | intros [] ].
  cbn [bind Monad_Prog bindProg call exec].
  destruct (handle time_Now w1) as [[now' | v] w2]; [ | intros [] ].
  cbn [bind Monad_Prog bindProg call exec].
  destruct (handle (FindBackupSettingsMatch (matchOf (bucketOf now))) w2)
    as [[[l err] | v] w3]; [ | intros [] ].
  rewrite exec_bindProg.
  pose proof (@launched_rangeOver _ _ handle (itoa (time.Unix (bucketOf now)))
                                  (time.Unix (time.UTC now')) l w3 x) as Hl.
  destruct err as [e | ]; cbn [emit exec ret Monad_Prog];
    destruct (exec handle (rangeOver _ _ l) w3) as [[r w'] tr];
    cbn [snd launched] in *; intros Hin;
    destruct (Hl Hin) as (bs & database & _ & ->); repeat eexists.
Qed.

(** X4. [scheduleBackupTask] reads the database of its setting through
    a pointer and panics when it is nil. Whatever the services answer, an
    attempt a tick starts has that pointer set, and its first step is the
    call that creates the backup, wherever and whenever the attempt
    runs. *)
Theorem launched_attempt_starts_with_backup
        (w : W) (backupSetting : BackupSetting.t) (uniqueKey : string) (epoch : Z)
        (V : Type) (handle' : forall X : Type, Call X -> V -> Outcome X * V) (v : V) :
  In (backupSetting, uniqueKey, epoch) (launched (snd (exec handle tick w))) ->
  exists database r tr,
    BackupSetting.Database backupSetting = Some database /\
    snd (exec handle' (scheduleBackupTask backupSetting uniqueKey epoch) v)
    = Called (CreateBackup (backupCreateOf backupSetting database uniqueKey epoch)) r :: tr.
Proof.
  intros Hin.
  destruct (launched_tick_any _ _ Hin) as (bs0 & database & k0 & e0 & Hx).
  injection Hx as -> -> ->. exists database.
  unfold scheduleBackupTask. cbn [withDatabase BackupSetting.Database].
  cbn [bind Monad_Prog bindProg call exec].
  destruct (handle' _ (CreateBackup _) v) as [[[backup | err] | p] v1] eqn:Hb.
  - destruct (exec handle' _ v1) as [[r' v2] tr'] eqn:Hrest.
    eexists. eexists. split; reflexivity.
  - destruct (exec handle' _ v1) as [[r' v2] tr'] eqn:Hrest.
    eexists. eexists. split; reflexivity.
  - eexists. eexists. split; reflexivity.
Qed.

(** An attempt the rounds of the loop start was started by a tick. *)
Lemma launched_loop (backupRunnerInterval : time.Duration) (n : nat) (w : W)
      (x : BackupSetting.t * string * Z) :
  In x (launched (snd (exec handle (loop backupRunnerInterval n) w))) ->
  exists w0 : W, In x (launched (snd (exec handle tick w0))).
Proof.
  revert w. induction n as [| n IH]; intros w; [ intros [] | ].
  rewrite exec_loop_S.
  destruct (exec handle tick w) as [[rb wb] trb] eqn:Htick.
  specialize (IH wb).
  destruct (exec handle (loop backupRunnerInterval n) wb) as [[r w'] tr].
  cbn [snd] in *. rewrite !launched_app. intros Hin.
  apply in_app_or in Hin. destruct Hin as [Hin | Hin].
  - exists w. rewrite Htick. exact Hin.
  - apply in_app_or in Hin. destruct Hin as [Hin | Hin].
    + destruct rb; contradiction.
    + exact (IH Hin).
Qed.

(** With creations that return, the function started for an attempt
    whose setting has its database returns, from any state. *)
Lemma goroutine_returns (backupSetting : BackupSetting.t) (database : Database.t)
      (uniqueKey : string) (epoch : Z) (w : W) :
  observe.creationsReturn handle ->
  BackupSetting.Database backupSetting = Some database ->
  exists w' tr,
    exec handle (scheduleBackupTaskGoroutine backupSetting uniqueKey epoch) w
    = (Returned tt, w', tr).
Proof.
  intros Hc Hd. unfold scheduleBackupTaskGoroutine.
  assert (Hs : exists r w1 tr1,
             exec handle (scheduleBackupTask backupSetting uniqueKey epoch) w
             = (Returned r, w1, tr1)).
  { unfold scheduleBackupTask. rewrite Hd.
    cbn [bind Monad_Prog bindProg call exec].
    destruct (Hc _ (CreateBackup (backupCreateOf backupSetting database uniqueKey epoch))
                 w eq_refl) as ([backup | err] & w1 & ->);
      [ | destruct (ErrorCode err); repeat eexists ].
    destruct (MarshalBackupPayload (Backup.ID backup)) as [bytes | err];
      [ | repeat eexists ].
    cbn [bind Monad_Prog bindProg call exec].
    match goal with
    | |- context [handle (CreatePipeline ?c) w1] =>
        destruct (Hc _ (CreatePipeline c) w1 eq_refl) as ([createdPipeline | err] & w2 & ->)
    end; [ | repeat eexists ].
    cbn [bind Monad_Prog bindProg call exec].
    match goal with
    | |- context [handle (CreateStage ?c) w2] =>
        destruct (Hc _ (CreateStage c) w2 eq_refl) as ([createdStage | err] & w3 & ->)
    end; [ | repeat eexists ].
    cbn [bind Monad_Prog bindProg call exec].
    match goal with
    | |- context [handle (CreateTask ?c) w3] =>
        destruct (Hc _ (CreateTask c) w3 eq_refl) as ([createdTask | err] & w4 & ->)
    end; repeat eexists. }
  destruct Hs as (r & w1 & tr1 & Hs).
  cbn [bind Monad_Prog]. rewrite exec_bindProg, Hs.
  destruct r as [err | ]; repeat eexists.
Qed.

(** X6. The runner does not end by a panic as long as the creations of
    entities do not panic. Whatever else the services answer, and
    whether the ticks return or panic, [n] rounds of the loop end
    normally and have slept [n] times, each time for the interval of the
    runner (a tick itself never sleeps); and every attempt these rounds
    have started, which runs in a goroutine of its own without a
    [recover], returns, in whatever state it runs. *)
Theorem loop_sleeps_every_round (backupRunnerInterval : time.Duration) (n : nat) (w : W) :
  observe.creationsReturn handle ->
  fst (fst (exec handle (loop backupRunnerInterval n) w)) = Returned tt
  /\ observe.sleeps (snd (exec handle (loop backupRunnerInterval n) w))
     = repeat backupRunnerInterval n
  /\ observe.sleeps (snd (exec handle tick w)) = []
  /\ (forall (backupSetting : BackupSetting.t) (uniqueKey : string) (epoch : Z),
         In (backupSetting, uniqueKey, epoch)
            (launched (snd (exec handle (loop backupRunnerInterval n) w))) ->
         forall v : W,
         exists v' tr,
           exec handle (scheduleBackupTaskGoroutine backupSetting uniqueKey epoch) v
           = (Returned tt, v', tr)).
Proof.
  intros Hc.
  split; [ | split; [ | split; [ apply tick_quiet | ] ] ].
  - revert w. induction n as [| n IH]; intros w; [ reflexivity | ].
    rewrite exec_loop_S.
    destruct (exec handle tick w) as [[rb wb] trb].
    specialize (IH wb).
    destruct (exec handle (loop backupRunnerInterval n) wb) as [[r w'] tr].
    exact IH.
  - revert w. induction n as [| n IH]; intros w; [ reflexivity | ].
    rewrite exec_loop_S.
    pose proof (tick_quiet w) as Hq.
    destruct (exec handle tick w) as [[rb wb] trb]. cbn [snd] in Hq.
    specialize (IH wb).
    destruct (exec handle (loop backupRunnerInterval n) wb) as [[r w'] tr].
    cbn [fst snd] in *.
    rewrite !sleeps_app, Hq. destruct rb; cbn; now rewrite IH.
  - intros backupSetting uniqueKey epoch Hin v.
    destruct (launched_loop _ _ _ _ Hin) as (w0 & Hin0).
    destruct (launched_tick_any _ _ Hin0) as (bs & database & k & e & Hx).
    injection Hx as -> -> ->.
    exact (goroutine_returns (withDatabase bs database) k e v Hc eq_refl).
Qed.

(** X7. The rounds carry nothing over but the state of the services:
    [n + m] rounds are [n] rounds followed by [m] rounds from the state
    the first [n] left. *)
Theorem loop_rounds_compose (backupRunnerInterval : time.Duration) (n m : nat) (w : W) :
  exec handle (loop backupRunnerInterval (n + m)) w
  = let '(_, w', tr) := exec handle (loop backupRunnerInterval n) w in
    let '(r, w'', tr') := exec handle (loop backupRunnerInterval m) w' in
    (r, w'', (tr ++ tr')%list).
Proof.
  revert w. induction n as [| n IH]; intros w.
  - cbn. destruct (exec handle (loop backupRunnerInterval m) w) as [[r w''] tr'].
    reflexivity.
  - change (S n + m)%nat with (S (n + m)). rewrite !exec_loop_S.
    destruct (exec handle tick w) as [[rb wb] trb]. cbv zeta.
    rewrite IH.
    destruct (exec handle (loop backupRunnerInterval n) wb) as [[r1 w1] tr1].
    destruct (exec handle (loop backupRunnerInterval m) w1) as [[r2 w2] tr2].
    rewrite <- !app_assoc. reflexivity.
Qed.

Lemma exec_rangeOver_app (uniqueKey : string) (epoch : Z) (l1 l2 : list BackupSetting.t)
      (w : W) :
  exec handle (rangeOver uniqueKey epoch (l1 ++ l2)) w =
  match exec handle (rangeOver uniqueKey epoch l1) w with
  | (Returned _, w1, tr1) =>
      let '(r, w2, tr2) := exec handle (rangeOver uniqueKey epoch l2) w1 in
      (r, w2, (tr1 ++ tr2)%list)
  | (Panicked v, w1, tr1) => (Panicked v, w1, tr1)
  end.
Proof.
  revert w. induction l1 as [| bs l1 IH]; intros w.
  - cbn. destruct (exec handle (rangeOver uniqueKey epoch l2) w) as [[r w2] tr2]. reflexivity.
  - rewrite <- app_comm_cons, !exec_rangeOver_cons.
    destruct (exec handle (forBackupSetting uniqueKey epoch bs) w) as [[[[] | v] wb] trb];
      [ | reflexivity ].
    rewrite IH.
    destruct (exec handle (rangeOver uniqueKey epoch l1) wb) as [[[[] | v] w1] tr1];
      [ | reflexivity ].
    destruct (exec handle (rangeOver uniqueKey epoch l2) w1) as [[r w2] tr2].
    rewrite app_assoc. reflexivity.
Qed.

Lemma resolutions_rangeOver (uniqueKey : string) (epoch : Z) (l : list BackupSetting.t)
      (w w' : W) (tr : list (Obs Call Effect)) :
  exec handle (rangeOver uniqueKey epoch l) w = (Returned tt, w', tr) ->
  map fst (resolutions tr) = map findOf l.
Proof.
  revert w tr. induction l as [| bs l IH]; intros w tr.
  - cbn. intros [= <- <-]. reflexivity.
  - rewrite exec_rangeOver_cons, exec_forBackupSetting.
    destruct (handle (ComposeDatabaseByFind (findOf bs)) w) as [[r | v] w1];
      [ | discriminate ].
    destruct (exec handle (rangeOver uniqueKey epoch l) w1) as [[r' w2] tr'] eqn:Hrest.
    intros [= -> <- <-]. cbn. f_equal. now apply IH with (w := w1).
Qed.

(** X8. A panic in the resolution of a match, unlike an error, ends the
    tick: the matches before it are resolved and their attempts stay
    started, the match and those after it are passed over in this round,
    the deferred function logs the panic, and the round sleeps and gives
    way to the next. *)
Theorem resolution_panic_ends_the_tick (w w1 w2 w3 wa wb : W) (now now' : time.Time)
        (l1 l2 : list BackupSetting.t) (backupSetting : BackupSetting.t)
        (tr1 : list (Obs Call Effect)) (v : PanicValue)
        (backupRunnerInterval : time.Duration) (n : nat) :
  handle time_Now w = (Returned now, w1) ->
  handle time_Now w1 = (Returned now', w2) ->
  handle (FindBackupSettingsMatch (matchOf (bucketOf now))) w2
  = (Returned ((l1 ++ backupSetting :: l2)%list, None), w3) ->
  exec handle (rangeOver (itoa (time.Unix (bucketOf now))) (time.Unix (time.UTC now')) l1) w3
  = (Returned tt, wa, tr1) ->
  handle (ComposeDatabaseByFind (findOf backupSetting)) wa = (Panicked v, wb) ->
  let tickTrace :=
    (Called time_Now (Returned now)
       :: Called time_Now (Returned now')
       :: Called (FindBackupSettingsMatch (matchOf (bucketOf now)))
            (Returned ((l1 ++ backupSetting :: l2)%list, None))
       :: tr1 ++ [Called (ComposeDatabaseByFind (findOf backupSetting)) (Panicked v)])%list in
  exec handle tick w = (Panicked v, wb, tickTrace)
  /\ map fst (resolutions tickTrace) = map findOf l1
  /\ launched tickTrace = launched tr1
  /\ exec handle (loop backupRunnerInterval (S n)) w
     = (let '(r, w', tr) := exec handle (loop backupRunnerInterval n) wb in
        (r, w',
         (tickTrace
            ++ Did (l_Error "Backup runner PANIC RECOVER"
                      [zap_Error match v with
                                 | PanicError err => err
                                 | PanicOther s => errorString s
                                 end])
            :: Did (time_Sleep backupRunnerInterval) :: tr)%list)).
Proof.
  intros H1 H2 H3 Hl1 Hp. cbv zeta.
  assert (Htick : exec handle tick w
                  = (Panicked v, wb,
                     (Called time_Now (Returned now)
                        :: Called time_Now (Returned now')
                        :: Called (FindBackupSettingsMatch (matchOf (bucketOf now)))
                             (Returned ((l1 ++ backupSetting :: l2)%list, None))
                        :: tr1 ++ [Called (ComposeDatabaseByFind (findOf backupSetting))
                                     (Panicked v)])%list)).
  { rewrite (@exec_tick _ _ handle _ _ _ _ _ _ _ _ H1 H2 H3).
    rewrite exec_rangeOver_app, Hl1, exec_rangeOver_cons, exec_forBackupSetting, Hp.
    reflexivity. }
  split; [ exact Htick | ]. split; [ | split ].
  - cbn. rewrite resolutions_app, map_app. cbn. rewrite app_nil_r.
    exact (resolutions_rangeOver _ _ _ _ Hl1).
  - cbn. rewrite launched_app. cbn. apply app_nil_r.
  - rewrite exec_loop_S, Htick.
    destruct (exec handle (loop backupRunnerInterval n) wb) as [[r w'] tr].
    reflexivity.
Qed.

End TickMore.

(** The attempt the tick at 03:17:00 starts, run in another store. *)
Lemma launched_attempt_starts_with_backup_witness :
  exists r tr,
    snd (exec (entitystore.handle entitystore.noFault)
              (scheduleBackupTask sample.resolved "1699930800" 1699931820)
              sample.withBackup)
    = Called (CreateBackup (backupCreateOf sample.resolved sample.database
                                           "1699930800" 1699931820)) r :: tr.
Proof.
  destruct (@launched_attempt_starts_with_backup
              sampleEnv _ (entitystore.handle entitystore.noFault)
              sample.initial sample.resolved "1699930800" 1699931820
              _ (entitystore.handle entitystore.noFault) sample.withBackup
              (or_introl eq_refl))
    as (database & r & tr & Hdatabase & Htrace).
  injection Hdatabase as <-. exists r, tr. exact Htrace.
Defined.

(** A round in which the resolution of database 42 panics, after the
    resolution of database 43 has failed: nothing is started. *)
Lemma resolution_panic_ends_the_tick_witness :
  launched (snd (exec (entitystore.handle fixtures.crashing) tick sample.initial)) = []
  /\ observe.sleeps (snd (exec (entitystore.handle fixtures.crashing) (loop 60 1)
                               sample.initial))
     = [60].
Proof.
  destruct (@resolution_panic_ends_the_tick
              sampleEnv _ (entitystore.handle fixtures.crashing)
              sample.initial sample.initial sample.initial sample.initial
              sample.initial sample.initial sample.now sample.now
              [sample.staleSetting] [] sample.setting _ fixtures.crash 60 0%nat
              eq_refl eq_refl eq_refl eq_refl eq_refl)
    as (Htick & _ & Hlaunched & Hloop).
  split.
  - rewrite Htick. cbn [snd]. rewrite Hlaunched. reflexivity.
  - rewrite Hloop. reflexivity.
Defined.

Lemma noFault_creates : observe.creationsReturn (entitystore.handle entitystore.noFault).
Proof.
  intros X e w He. unfold entitystore.handle, entitystore.noFault.
  destruct (entitystore.serve e w) as [x w']. now exists x, w'.
Qed.

(** Two rounds from 03:17:00 in a store without faults, and the attempt
    the first round starts, run once the backup of the hour exists. *)
Lemma loop_sleeps_every_round_witness :
  observe.sleeps (snd (exec (entitystore.handle entitystore.noFault) (loop 60 2)
                            sample.initial))
  = [60; 60]
  /\ exists v' tr,
       exec (entitystore.handle entitystore.noFault)
            (scheduleBackupTaskGoroutine sample.resolved "1699930800" 1699931820)
            sample.withBackup
       = (Returned tt, v', tr).
Proof.
  destruct (@loop_sleeps_every_round
              sampleEnv _ (entitystore.handle entitystore.noFault) 60 2%nat
              sample.initial noFault_creates)
    as (_ & Hsleeps & _ & Hattempts).
  split; [ exact Hsleeps | ].
  apply Hattempts. vm_compute. left. reflexivity.
Defined.

(* ================================================================== *)
(** * More on buckets, names and paths *)
(* ================================================================== *)

Lemma hour_of_floor (s : Z) : (s mod 86400) / 3600 = (s / 3600) mod 24.
Proof.
  pose proof (Z_div_mod_eq_full s 3600).
  pose proof (Z.mod_pos_bound s 3600 ltac:(lia)).
  pose proof (Z_div_mod_eq_full (s / 3600) 24).
  pose proof (Z.mod_pos_bound (s / 3600) 24 ltac:(lia)).
  assert (Hm : s mod 86400 = 3600 * ((s / 3600) mod 24) + s mod 3600).
  { symmetry. apply Z.mod_unique_pos with (q := (s / 3600) / 24); lia. }
  rewrite Hm. symmetry. apply Z.div_unique_pos with (r := s mod 3600); lia.
Qed.

Lemma Unix_div_3600 (now : time.Time) : time.Unix now / 3600 = now / time.Hour.
Proof.
  unfold time.Unix. rewrite Z.div_div by (unfold time.Second; lia). reflexivity.
Qed.

(** X9. The match of a tick holds the hour of the day and the day of
    the week of the current time itself: truncating to the hour changes
    neither. The hour is in 0..23 and the day in 0..6. *)
Theorem match_is_hour_and_weekday_of_now (now : time.Time) :
  let m := matchOf (bucketOf now) in
  BackupSettingsMatch.Hour m = time.HourOf now
  /\ BackupSettingsMatch.DayOfWeek m = time.Weekday now
  /\ 0 <= BackupSettingsMatch.Hour m < 24
  /\ 0 <= BackupSettingsMatch.DayOfWeek m < 7.
Proof.
  cbv zeta. unfold matchOf, time.HourOf, time.Weekday.
  cbn [BackupSettingsMatch.Hour BackupSettingsMatch.DayOfWeek].
  rewrite !hour_of_floor, Unix_bucketOf.
  assert (H1 : 3600 * (now / time.Hour) / 3600 = now / time.Hour).
  { rewrite Z.mul_comm. apply Z_div_mult_full. lia. }
  assert (H2 : 3600 * (now / time.Hour) / 86400 = time.Unix now / 86400).
  { rewrite <- Unix_div_3600.
    change 86400 with (3600 * 24). rewrite <- !Z.div_div by lia.
    rewrite (Z.mul_comm 3600), Z_div_mult_full by lia. reflexivity. }
  rewrite H1, H2, Unix_div_3600.
  repeat split; try apply Z.mod_pos_bound; lia.
Qed.

Lemma digits_then_dash (d1 d2 : Decimal.uint) (x y : string) :
  NilEmpty.string_of_uint d1 ++ String "-" x = NilEmpty.string_of_uint d2 ++ String "-" y ->
  d1 = d2 /\ x = y.
Proof.
  revert d2.
  induction d1 as [| d1 IH | d1 IH | d1 IH | d1 IH | d1 IH | d1 IH | d1 IH | d1 IH
                   | d1 IH | d1 IH];
    intros [| d2 | d2 | d2 | d2 | d2 | d2 | d2 | d2 | d2 | d2] H; simpl in H;
    try discriminate;
    try (injection H as H; destruct (IH _ H) as [-> ->]; split; reflexivity).
  injection H as ->. split; reflexivity.
Qed.

Lemma to_int_digits (z : Z) :
  exists d, d <> Decimal.Nil /\ (Z.to_int z = Decimal.Pos d \/ Z.to_int z = Decimal.Neg d).
Proof.
  destruct z as [| p | p].
  - exists (Decimal.D0 Decimal.Nil). split; [ discriminate | now left ].
  - exists (Pos.to_uint p). split; [ apply DecimalPos.Unsigned.to_uint_nonnil | now left ].
  - exists (Pos.to_uint p). split; [ apply DecimalPos.Unsigned.to_uint_nonnil | now right ].
Qed.

Lemma digits_head (d : Decimal.uint) (x : string) :
  d <> Decimal.Nil ->
  exists c rest, NilEmpty.string_of_uint d ++ x = String c rest /\ c <> "-"%char.
Proof.
  destruct d; [ congruence | .. ]; intros _; simpl; eexists; eexists;
    (split; [ reflexivity | discriminate ]).
Qed.

(** A numeral followed by a dash is read back in one way. *)
Lemma itoa_then_dash (a b : Z) (x y : string) :
  itoa a ++ String "-" x = itoa b ++ String "-" y -> a = b /\ x = y.
Proof.
  unfold itoa. intros H.
  destruct (to_int_digits a) as (da & Hda & [Ea | Ea]);
    destruct (to_int_digits b) as (db & Hdb & [Eb | Eb]);
    rewrite Ea, Eb in H; simpl in H.
  - destruct (digits_then_dash _ _ _ _ H) as [-> ->].
    split; [ apply DecimalZ.to_int_inj; congruence | reflexivity ].
  - destruct (digits_head (String "-" x) Hda) as (c & rest & Hc & Hne).
    rewrite Hc in H. congruence.
  - destruct (digits_head (String "-" y) Hdb) as (c & rest & Hc & Hne).
    rewrite Hc in H. congruence.
  - injection H as H. destruct (digits_then_dash _ _ _ _ H) as [-> ->].
    split; [ apply DecimalZ.to_int_inj; congruence | reflexivity ].
Qed.

(** X10. The name of a backup determines its bucket and its database:
    two ticks give two databases the same backup name only when the
    buckets are the same and the databases are the same, negative ids
    included. *)
Theorem backup_names_never_collide (now1 now2 : time.Time) (databaseId1 databaseId2 : Z) :
  backupKey (itoa (time.Unix (bucketOf now1))) databaseId1
  = backupKey (itoa (time.Unix (bucketOf now2))) databaseId2 <->
  bucketOf now1 = bucketOf now2 /\ databaseId1 = databaseId2.
Proof.
  split.
  - unfold backupKey. intros H. apply append_inv_head in H.
    apply itoa_then_dash in H. destruct H as [Hb Hd].
    apply itoa_inj in Hd. split; [ | exact Hd ].
    rewrite !Unix_bucketOf in Hb. apply bucketOf_eq. lia.
  - intros [-> ->]. reflexivity.
Qed.

Lemma concat_length (sep : string) (pieces : list string) :
  String.length (String.concat sep pieces)
  = (fold_right (fun p n => String.length p + n) 0 pieces
     + (List.length pieces - 1) * String.length sep)%nat.
Proof.
  induction pieces as [| p ps IH]; [ reflexivity | ].
  destruct ps as [| q ps].
  - simpl. lia.
  - change (String.concat sep (p :: q :: ps)) with (p ++ sep ++ String.concat sep (q :: ps)).
    rewrite !append_length, IH. simpl. lia.
Qed.

Lemma append_same_length (a b x y : string) :
  String.length a = String.length b -> a ++ x = b ++ y -> a = b.
Proof.
  revert b. induction a as [| c a IH]; intros [| d b] Hlen H; simpl in *;
    try discriminate; [ reflexivity | ].
  injection H as -> H. f_equal. apply IH; [ lia | exact H ].
Qed.

Lemma Join_inj (p q : string) (rest : list string) (new1 new2 : string) :
  strings.Join (p :: q :: rest) new1 = strings.Join (p :: q :: rest) new2 -> new1 = new2.
Proof.
  unfold strings.Join. intros H.
  assert (Hlen : String.length new1 = String.length new2).
  { apply (f_equal String.length) in H. rewrite !concat_length in H.
    simpl List.length in H. nia. }
  change (String.concat new1 (p :: q :: rest))
    with (p ++ new1 ++ String.concat new1 (q :: rest)) in H.
  change (String.concat new2 (p :: q :: rest))
    with (p ++ new2 ++ String.concat new2 (q :: rest)) in H.
  apply append_inv_head in H. exact (append_same_length _ _ _ _ Hlen H).
Qed.

(** X11. With a template that is not empty and holds no placeholder,
    the path is the template itself, whatever the time: every backup of
    the setting gets the same path. *)
Theorem path_without_placeholder_is_constant
        (backupSetting : BackupSetting.t) (database : Database.t) (epoch : Z) :
  BackupSetting.PathTemplate backupSetting <> "" ->
  strings.Contains (BackupSetting.PathTemplate backupSetting) "{{TIME}}" = false ->
  backupPath backupSetting database epoch = BackupSetting.PathTemplate backupSetting.
Proof.
  intros Hne Hfree. unfold backupPath.
  destruct (String.eqb_spec (BackupSetting.PathTemplate backupSetting) "");
    [ contradiction | ].
  cbn [negb]. exact (replace_none _ _ Hfree).
Qed.

(** X12. With the empty template, and with a template that holds the
    placeholder, the path determines the time: attempts of a setting at
    two different seconds never get the same path. *)
Theorem path_determines_epoch
        (backupSetting : BackupSetting.t) (database : Database.t) (epoch1 epoch2 : Z) :
  BackupSetting.PathTemplate backupSetting = "" \/
  strings.Contains (BackupSetting.PathTemplate backupSetting) "{{TIME}}" = true ->
  backupPath backupSetting database epoch1 = backupPath backupSetting database epoch2 ->
  epoch1 = epoch2.
Proof.
  unfold backupPath. intros [Hempty | Hin].
  - rewrite Hempty. cbn. unfold defaultPath. intros H.
    do 4 apply append_inv_head in H. apply append_inv_tail in H. now apply itoa_inj.
  - destruct (String.eqb_spec (BackupSetting.PathTemplate backupSetting) "") as [E | _].
    + rewrite E in Hin. discriminate.
    + cbn [negb].
      destruct (template_pieces (BackupSetting.PathTemplate backupSetting))
        as (pieces & Hjoin & Hfree).
      rewrite Hjoin in *. rewrite !ReplaceAll_Join by assumption.
      destruct pieces as [| p [| q rest]].
      * discriminate.
      * inversion Hfree; subst. cbn in Hin. congruence.
      * intros H. apply Join_inj in H. now apply itoa_inj.
Qed.

(** A setting whose template has no placeholder. *)
Lemma path_without_placeholder_is_constant_witness :
  backupPath (withDatabase
                {| BackupSetting.ID := 4; BackupSetting.DatabaseId := 42;
                   BackupSetting.Database := None;
                   BackupSetting.Hour := 3; BackupSetting.DayOfWeek := 2;
                   BackupSetting.PathTemplate := "/b/latest.sql" |}
                sample.database)
             sample.database 1699931820
  = "/b/latest.sql".
Proof.
  apply (@path_without_placeholder_is_constant
           (withDatabase
              {| BackupSetting.ID := 4; BackupSetting.DatabaseId := 42;
                 BackupSetting.Database := None;
                 BackupSetting.Hour := 3; BackupSetting.DayOfWeek := 2;
                 BackupSetting.PathTemplate := "/b/latest.sql" |}
              sample.database)
           sample.database 1699931820).
  - discriminate.
  - reflexivity.
Defined.

(** The sample setting, whose template holds the placeholder, at two
    seconds. *)
Lemma path_determines_epoch_witness :
  backupPath sample.resolved sample.database 1699931820
  <> backupPath sample.resolved sample.database 1699931821.
Proof.
  intros H.
  pose proof (@path_determines_epoch sample.resolved sample.database
                                     1699931820 1699931821 (or_intror eq_refl) H) as E.
  discriminate E.
Defined.

(* ================================================================== *)
(** * More on looking up projects *)
(* ================================================================== *)

(** X13. Whatever the filter, the query of [findProjectList] holds as
    many [?] as the call has arguments; its [WHERE] clause starts with
    [1 = 1] and has one more condition than there are arguments. *)
Theorem where_placeholders_match_args (find : ProjectFind.t) :
  projectservice.placeholders
    (store.selectProject ++ strings.Join (fst (store.whereOf find)) " AND ")
  = List.length (snd (store.whereOf find))
  /\ hd "" (fst (store.whereOf find)) = "1 = 1"
  /\ List.length (fst (store.whereOf find)) = S (List.length (snd (store.whereOf find))).
Proof.
  destruct find as [[id | ] [rs | ] [ws | ] [pr | ]]; repeat split.
Qed.

Lemma rollbacks_app (E : Type -> Type) (tr1 tr2 : list (Obs E store.Effect)) :
  projectservice.rollbacks (tr1 ++ tr2)
  = (projectservice.rollbacks tr1 ++ projectservice.rollbacks tr2)%list.
Proof.
  induction tr1 as [| o tr1 IH]; [ reflexivity | ].
  destruct o as [X e r | [tx | | msg]]; simpl; now rewrite IH.
Qed.

Section LookupMore.

Import store.

Context {env : Env}.
Variable W : Type.
Variable handle : forall X : Type, store.Call X -> W -> Outcome X * W.

Lemma scanAll_first_error (before : list Project.t) (err : error)
      (rest : list (Project.t + error)) (acc : list Project.t) :
  scanAll (map inl before ++ inr err :: rest) acc = inr (FormatError err).
Proof.
  revert acc. induction before as [| p before IH]; intros acc; [ reflexivity | ].
  simpl. apply IH.
Qed.

(** X14. [findProjectList] returns a list or nothing: when the query
    fails, it returns that error (formatted) and closes no rows; when a
    row fails to scan, it returns the error of the first such row, and
    when the iteration ends with an error, that error, in both cases
    after closing the rows and without the rows read so far. *)
Theorem findProjectList_fails_whole (tx : Tx) (find : ProjectFind.t) (w w' : W) :
  let run := exec handle (findProjectList tx find) w in
  (forall err,
      handle (queryOf tx find) w = (Returned (inr err), w') ->
      run = (Returned (inr (FormatError err)), w',
             [Called (queryOf tx find) (Returned (inr err))]))
  /\
  (forall rows before err rest,
      handle (queryOf tx find) w = (Returned (inl rows), w') ->
      scans rows = (map inl before ++ inr err :: rest)%list ->
      run = (Returned (inr (FormatError err)), w',
             [Called (queryOf tx find) (Returned (inl rows)); Did rows_Close]))
  /\
  (forall rows found err,
      handle (queryOf tx find) w = (Returned (inl rows), w') ->
      scans rows = map inl found ->
      rowsErr rows = Some err ->
      run = (Returned (inr (FormatError err)), w',
             [Called (queryOf tx find) (Returned (inl rows)); Did rows_Close])).
Proof.
  cbv zeta. unfold findProjectList, queryOf.
  destruct (whereOf find) as [where_ args]. cbn [fst snd].
  cbn [bind Monad_Prog bindProg call exec].
  split; [ | split ].
  - intros err Hq. rewrite Hq. reflexivity.
  - intros rows before err rest Hq Hs. rewrite Hq.
    cbn [bind ret Monad_Prog bindProg call exec]. rewrite Hs, scanAll_first_error.
    reflexivity.
  - intros rows found err Hq Hs He. rewrite Hq.
    cbn [bind ret Monad_Prog bindProg call exec]. rewrite Hs, scanAll_inl, He.
    reflexivity.
Qed.

Lemma exec_FindProject (find : ProjectFind.t) (w : W) :
  exec handle (FindProject find) w =
  match handle BeginTx w with
  | (Panicked v, w1) => (Panicked v, w1, [Called BeginTx (Panicked v)])
  | (Returned (inr err), w1) =>
      (Returned (inr (FormatError err)), w1, [Called BeginTx (Returned (inr err))])
  | (Returned (inl tx), w1) =>
      let '(r, w2, tr) := exec handle (findProjectList tx find) w1 in
      (match r with
       | Panicked v => Panicked v
       | Returned (inr err) => Returned (inr err)
       | Returned (inl []) => Returned (inr (projectservice.notFound find))
       | Returned (inl (first :: _)) => Returned (inl first)
       end,
       w2,
       (Called BeginTx (Returned (inl tx))
          :: tr
          ++ match r with
             | Returned (inl found) => projectservice.warning found
             | _ => []
             end
          ++ [Did (tx_Rollback tx)])%list)
  end.
Proof.
  unfold FindProject. cbn [bind Monad_Prog bindProg call exec].
  destruct (handle BeginTx w) as [[[tx | err] | v] w1]; [ | reflexivity | reflexivity ].
  cbn [bind Monad_Prog bindProg call exec]. rewrite exec_bindProg.
  destruct (exec handle (findProjectList tx find) w1) as [[[[found | err] | v] w2] tr].
  - destruct found as [| first [| second rest]]; cbn;
      rewrite ?app_nil_r, <- ?app_assoc; reflexivity.
  - cbn. rewrite ?app_nil_r. reflexivity.
  - cbn. reflexivity.
Qed.

Lemma exec_FindProjectList (find : ProjectFind.t) (w : W) :
  exec handle (projectservice.FindProjectList find) w =
  match handle BeginTx w with
  | (Panicked v, w1) => (Panicked v, w1, [Called BeginTx (Panicked v)])
  | (Returned (inr err), w1) =>
      (Returned ([], Some (FormatError err)), w1, [Called BeginTx (Returned (inr err))])
  | (Returned (inl tx), w1) =>
      let '(r, w2, tr) := exec handle (findProjectList tx find) w1 in
      (match r with
       | Panicked v => Panicked v
       | Returned (inr err) => Returned ([], Some err)
       | Returned (inl found) => Returned (found, None)
       end,
       w2,
       (Called BeginTx (Returned (inl tx)) :: tr ++ [Did (tx_Rollback tx)])%list)
  end.
Proof.
  unfold projectservice.FindProjectList. cbn [bind Monad_Prog bindProg call exec].
  destruct (handle BeginTx w) as [[[tx | err] | v] w1]; [ | reflexivity | reflexivity ].
  cbn [bind Monad_Prog bindProg call exec]. rewrite exec_bindProg.
  destruct (exec handle (findProjectList tx find) w1) as [[[[found | err] | v] w2] tr];
    cbn; rewrite ?app_nil_r; reflexivity.
Qed.

(** X15. Whatever the database answers, a [FindProjectList] that
    returns an error returns no project with it. *)
Theorem FindProjectList_error_has_no_list (find : ProjectFind.t) (w : W)
        (found : list Project.t) (err : error) :
  fst (fst (exec handle (projectservice.FindProjectList find) w)) = Returned (found, Some err) ->
  found = [].
Proof.
  rewrite exec_FindProjectList.
  destruct (handle BeginTx w) as [[[tx | e] | v] w1]; cbn [fst].
  - destruct (exec handle (findProjectList tx find) w1) as [[[[l | e] | v] w2] tr];
      cbn [fst]; congruence.
  - congruence.
  - congruence.
Qed.

(** X26. When the transaction opens and the query returns rows that all
    scan, [FindProjectList] returns these rows, in the order of the
    result set, with a nil error, and rolls the transaction back. *)
Theorem FindProjectList_returns_the_rows (find : ProjectFind.t) (w w1 w2 : W) (tx : Tx)
        (rows : Rows) (found : list Project.t) :
  handle BeginTx w = (Returned (inl tx), w1) ->
  handle (queryOf tx find) w1 = (Returned (inl rows), w2) ->
  scans rows = map inl found ->
  rowsErr rows = None ->
  exec handle (projectservice.FindProjectList find) w
  = (Returned (found, None), w2,
     [Called BeginTx (Returned (inl tx));
      Called (queryOf tx find) (Returned (inl rows));
      Did rows_Close;
      Did (tx_Rollback tx)]).
Proof.
  intros Hb Hq Hs He.
  rewrite exec_FindProjectList, Hb,
    (@exec_findProjectList _ _ handle tx find w1 w2 rows found Hq Hs He).
  reflexivity.
Qed.

(** X16. Whatever the database answers, [FindProject] is
    [FindProjectList] cut to its head: from the same state they leave the
    same state, and [FindProject] returns the error of the list if there
    is one, the not-found error for the empty list, and else the first
    project of the list. *)
Theorem FindProject_is_head_of_list (find : ProjectFind.t) (w : W) :
  let '(one, w1, _) := exec handle (FindProject find) w in
  let '(many, w2, _) := exec handle (projectservice.FindProjectList find) w in
  w1 = w2 /\
  one = match many with
        | Panicked v => Panicked v
        | Returned (_, Some err) => Returned (inr err)
        | Returned ([], None) =>
            Returned (inr (Error ENOTFOUND ("project not found: " ++ SprintFind find)))
        | Returned (first :: _, None) => Returned (inl first)
        end.
Proof.
  rewrite exec_FindProject, exec_FindProjectList.
  destruct (handle BeginTx w) as [[[tx | e] | v] w1];
    [ | split; reflexivity | split; reflexivity ].
  destruct (exec handle (findProjectList tx find) w1) as [[[[l | e] | v] w2] tr];
    split; reflexivity.
Qed.

Lemma findProjectList_no_rollback (tx : Tx) (find : ProjectFind.t) (w : W) :
  projectservice.rollbacks (snd (exec handle (findProjectList tx find) w)) = [].
Proof.
  unfold findProjectList. destruct (whereOf find) as [where_ args].
  cbn [bind Monad_Prog bindProg call exec].
  destruct (handle _ w) as [[[rows | err] | v] w1]; [ | reflexivity | reflexivity ].
  cbn [bind ret Monad_Prog bindProg call exec].
  destruct (scanAll (scans rows) []) as [found | err]; [ | reflexivity ].
  destruct (rowsErr rows); reflexivity.
Qed.

(** X17. Once the transaction is open, [FindProject] and
    [FindProjectList] roll it back as the last thing they do, and once,
    however the lookup goes: with a result, with an error, or with a
    panic of the query. *)
Theorem lookup_rolls_back_last (find : ProjectFind.t) (w w1 : W) (tx : Tx) :
  handle BeginTx w = (Returned (inl tx), w1) ->
  let one := snd (exec handle (FindProject find) w) in
  let many := snd (exec handle (projectservice.FindProjectList find) w) in
  (last one (Did rows_Close) = Did (tx_Rollback tx) /\ projectservice.rollbacks one = [tx])
  /\ (last many (Did rows_Close) = Did (tx_Rollback tx)
      /\ projectservice.rollbacks many = [tx]).
Proof.
  intros Hb. cbv zeta. rewrite exec_FindProject, exec_FindProjectList, Hb.
  pose proof (findProjectList_no_rollback tx find w1) as Hn.
  destruct (exec handle (findProjectList tx find) w1) as [[r w2] tr].
  cbn [snd] in *. split; split.
  - rewrite app_comm_cons, app_assoc. apply last_last.
  - cbn [projectservice.rollbacks]. rewrite !rollbacks_app, Hn.
    destruct r as [[[| p [| q l]] | e] | v]; reflexivity.
  - rewrite app_comm_cons. apply last_last.
  - cbn [projectservice.rollbacks]. rewrite !rollbacks_app, Hn. reflexivity.
Qed.

End LookupMore.

(** A result set whose second row does not scan. *)
Lemma findProjectList_fails_whole_witness :
  fst (fst (exec fixtures.garbling (store.findProjectList 1 sample.anyProject) tt))
  = Returned (inr (Error (ECode "INTERNAL") "database is locked")).
Proof.
  rewrite (proj1 (proj2 (@findProjectList_fails_whole
                           sampleEnv _ fixtures.garbling 1 sample.anyProject tt tt))
                 _ [sample.project 1 "a"] sample.internal [] eq_refl eq_refl).
  reflexivity.
Defined.

(** A database that does not open a transaction. *)
Lemma FindProjectList_error_has_no_list_witness :
  fst (fst (exec fixtures.refusing (projectservice.FindProjectList sample.anyProject) tt))
  = Returned ([], Some (Error (ECode "INTERNAL") "database is locked"))
  /\ @nil Project.t = [].
Proof.
  split; [ reflexivity | ].
  exact (@FindProjectList_error_has_no_list
           sampleEnv _ fixtures.refusing sample.anyProject tt [] _ eq_refl).
Defined.

(** A database with two projects. *)
Lemma FindProjectList_returns_the_rows_witness :
  fst (fst (exec (sample.answering [sample.project 1 "a"; sample.project 2 "b"])
                 (projectservice.FindProjectList sample.anyProject) tt))
  = Returned ([sample.project 1 "a"; sample.project 2 "b"], None).
Proof.
  rewrite (@FindProjectList_returns_the_rows
             sampleEnv _ (sample.answering [sample.project 1 "a"; sample.project 2 "b"])
             sample.anyProject tt tt tt 1 _ [sample.project 1 "a"; sample.project 2 "b"]
             eq_refl eq_refl eq_refl eq_refl).
  reflexivity.
Defined.

Lemma lookup_rolls_back_last_witness :
  projectservice.rollbacks
    (snd (exec (sample.answering [sample.project 1 "a"; sample.project 2 "b"])
               (store.FindProject sample.anyProject) tt))
  = [1].
Proof.
  exact (proj2 (proj1 (@lookup_rolls_back_last
                         sampleEnv _
                         (sample.answering [sample.project 1 "a"; sample.project 2 "b"])
                         sample.anyProject tt tt 1 eq_refl))).
Defined.

(* ================================================================== *)
(** * More on writing projects *)
(* ================================================================== *)

Section WriteMore.

Import projectservice.

(** X18. Whatever the patch, the statement of [patchProject] holds as
    many [?] as the call has arguments; the first argument is the
    updater and the last the id of the project. *)
Theorem patch_placeholders_match_args (patch : ProjectPatch.t) :
  placeholders (updateProject patch) = List.length (snd (setOf patch))
  /\ hd (AInt 0) (snd (setOf patch)) = AInt (ProjectPatch.UpdaterId patch)
  /\ last (snd (setOf patch)) (AInt 0) = AInt (ProjectPatch.ID patch).
Proof.
  destruct patch as [id updater [rs | ] [name | ] [key | ]]; repeat split.
Qed.

(** X19. The statement of [createProject] names six columns and holds
    six [?], and the call passes five arguments: none for
    [environment_id]. *)
Theorem insert_misses_an_argument (create : ProjectCreate.t) :
  placeholders insertProject = 6%nat /\ List.length (insertArgs create) = 5%nat.
Proof. split; reflexivity. Qed.


Context {env : Env}.
Variable errRowsClosed : error.
Variable W : Type.
Variable handle : forall X : Type, Call X -> W -> Outcome X * W.

Lemma exec_patchProject (tx : store.Tx) (patch : ProjectPatch.t) (w : W) :
  exec handle (patchProject tx patch) w =
  match handle (QueryContext tx (updateProject patch) (snd (setOf patch))) w with
  | (Panicked v, w') =>
      (Panicked v, w',
       [Called (QueryContext tx (updateProject patch) (snd (setOf patch))) (Panicked v)])
  | (Returned (inr err), w') =>
      (Returned (inr (FormatError err)), w',
       [Called (QueryContext tx (updateProject patch) (snd (setOf patch)))
          (Returned (inr err))])
  | (Returned (inl row), w') =>
      (Returned (patched patch row), w',
       [Called (QueryContext tx (updateProject patch) (snd (setOf patch)))
          (Returned (inl row));
        Did store.rows_Close])
  end.
Proof.
  unfold patchProject, patched. cbn [bind Monad_Prog bindProg call exec].
  destruct (handle _ w) as [[[row | err] | v] w']; [ | reflexivity | reflexivity ].
  destruct (store.scans row) as [| [p | e] rest]; reflexivity.
Qed.

Lemma exec_createProject (tx : store.Tx) (create : ProjectCreate.t) (w : W) :
  exec handle (createProject errRowsClosed tx create) w =
  match handle (QueryContext tx insertProject (insertArgs create)) w with
  | (Panicked v, w') =>
      (Panicked v, w', [Called (QueryContext tx insertProject (insertArgs create)) (Panicked v)])
  | (Returned (inr err), w') =>
      (Returned (inr (FormatError err)), w',
       [Called (QueryContext tx insertProject (insertArgs create)) (Returned (inr err))])
  | (Returned (inl row), w') =>
      (Returned (inserted errRowsClosed row), w',
       [Called (QueryContext tx insertProject (insertArgs create)) (Returned (inl row));
        Did store.rows_Close])
  end.
Proof.
  unfold createProject, inserted. cbn [bind Monad_Prog bindProg call exec].
  destruct (handle _ w) as [[[row | err] | v] w']; [ | reflexivity | reflexivity ].
  destruct (nextThenScan errRowsClosed row) as [p | e]; reflexivity.
Qed.

Lemma exec_PatchProject (patch : ProjectPatch.t) (w : W) :
  exec handle (PatchProject patch) w =
  match handle BeginTx w with
  | (Panicked v, w1) => (Panicked v, w1, [Called BeginTx (Panicked v)])
  | (Returned (inr err), w1) =>
      (Returned (inr (FormatError err)), w1, [Called BeginTx (Returned (inr err))])
  | (Returned (inl tx), w1) =>
      let '(r, w2, tr) := exec handle (patchProject tx patch) w1 in
      let '(r', w3, tr') :=
        match r with
        | Panicked v => (Panicked v, w2, [])
        | Returned x => thenCommit handle tx w2 x FormatError
        end in
      (r', w3,
       (Called BeginTx (Returned (inl tx)) :: tr ++ tr' ++ [Did (store.tx_Rollback tx)])%list)
  end.
Proof.
  unfold PatchProject. cbn [bind Monad_Prog bindProg call exec].
  destruct (handle BeginTx w) as [[[tx | err] | v] w1]; [ | reflexivity | reflexivity ].
  cbn [bind Monad_Prog bindProg call exec]. rewrite exec_bindProg.
  destruct (exec handle (patchProject tx patch) w1) as [[[[p | err] | v] w2] tr].
  - unfold thenCommit. cbn [bind Monad_Prog bindProg call exec].
    destruct (handle (Commit tx) w2) as [[[e | ] | v] w3]; cbn;
      rewrite <- ?app_assoc; reflexivity.
  - cbn. rewrite ?app_nil_r. reflexivity.
  - cbn. reflexivity.
Qed.

Lemma exec_CreateProject (create : ProjectCreate.t) (w : W) :
  exec handle (CreateProject errRowsClosed create) w =
  match handle BeginTx w with
  | (Panicked v, w1) => (Panicked v, w1, [Called BeginTx (Panicked v)])
  | (Returned (inr err), w1) =>
      (Returned (inr (FormatError err)), w1, [Called BeginTx (Returned (inr err))])
  | (Returned (inl tx), w1) =>
      let '(r, w2, tr) := exec handle (createProject errRowsClosed tx create) w1 in
      let '(r', w3, tr') :=
        match r with
        | Panicked v => (Panicked v, w2, [])
        | Returned x => thenCommit handle tx w2 x (fun err => err)
        end in
      (r', w3,
       (Called BeginTx (Returned (inl tx)) :: tr ++ tr' ++ [Did (store.tx_Rollback tx)])%list)
  end.
Proof.
  unfold CreateProject. cbn [bind Monad_Prog bindProg call exec].
  destruct (handle BeginTx w) as [[[tx | err] | v] w1]; [ | reflexivity | reflexivity ].
  cbn [bind Monad_Prog bindProg call exec]. rewrite exec_bindProg.
  destruct (exec handle (createProject errRowsClosed tx create) w1) as [[[[p | err] | v] w2] tr].
  - unfold thenCommit. cbn [bind Monad_Prog bindProg call exec].
    destruct (handle (Commit tx) w2) as [[[e | ] | v] w3]; cbn;
      rewrite <- ?app_assoc; reflexivity.
  - cbn. rewrite ?app_nil_r. reflexivity.
  - cbn. reflexivity.
Qed.

Lemma commits_app (tr1 tr2 : list (Obs Call store.Effect)) :
  commits (tr1 ++ tr2) = (commits tr1 ++ commits tr2)%list.
Proof.
  induction tr1 as [| o tr1 IH]; [ reflexivity | ].
  destruct o as [X e r | o]; [ destruct e | ]; simpl; now rewrite IH.
Qed.

Lemma thenCommit_disciplined (tx : store.Tx) (w : W) (x : Project.t + error)
      (wrap : error -> error) :
  let '(r, _, tr) := thenCommit handle tx w x wrap in
  ((exists project, r = Returned (inl project)) <->
   (exists tx', commits tr = [(tx', Returned None)]))
  /\ (List.length (commits tr) <= 1)%nat
  /\ rollbacks tr = [].
Proof.
  unfold thenCommit. destruct x as [p | e].
  - destruct (handle (Commit tx) w) as [[[e | ] | v] w']; cbn;
      (split; [ split; intros [y Hy]; try discriminate | split; [ lia | reflexivity ] ]).
    + now exists tx.
    + now exists p.
  - cbn. split; [ split; intros [y Hy]; discriminate | split; [ lia | reflexivity ] ].
Qed.

Lemma begun_disciplined (tx : store.Tx) (w w1 w3 : W)
      (r : Outcome (Project.t + error)) (tr tr' : list (Obs Call store.Effect)) :
  handle BeginTx w = (Returned (inl tx), w1) ->
  commits tr = [] ->
  rollbacks tr = [] ->
  ((exists project, r = Returned (inl project)) <->
   (exists tx', commits tr' = [(tx', Returned None)])) ->
  (List.length (commits tr') <= 1)%nat ->
  rollbacks tr' = [] ->
  disciplined handle w
    (r, w3, (Called BeginTx (Returned (inl tx)) :: tr ++ tr' ++ [Did (store.tx_Rollback tx)])%list).
Proof.
  intros Hb Hc Hr Hiff Hlen Hr'. unfold disciplined.
  assert (Hcs : commits (Called BeginTx (Returned (inl tx))
                           :: tr ++ tr' ++ [Did (store.tx_Rollback tx)])%list
                = commits tr').
  { cbn [commits]. rewrite !commits_app, Hc. cbn. apply app_nil_r. }
  assert (Hrs : rollbacks (Called BeginTx (Returned (inl tx))
                             :: tr ++ tr' ++ [Did (store.tx_Rollback tx)])%list
                = [tx]).
  { cbn [rollbacks]. rewrite !rollbacks_app, Hr, Hr'. reflexivity. }
  rewrite Hcs, Hrs. split; [ exact Hiff | ]. split; [ exact Hlen | ]. split.
  - intros tx0 w0 H0. rewrite Hb in H0. injection H0 as <- _. split; [ | reflexivity ].
    rewrite app_comm_cons, !app_assoc. apply last_last.
  - intros err w0 H0. rewrite Hb in H0. discriminate.
Qed.

Lemma not_begun_disciplined (w w1 : W) (r : Outcome (Project.t + error))
      (o : Outcome (store.Tx + error)) :
  handle BeginTx w = (o, w1) ->
  match o with
  | Returned (inl _) => False
  | Returned (inr err) => r = Returned (inr (FormatError err))
  | Panicked v => r = Panicked v
  end ->
  disciplined handle w (r, w1, [Called BeginTx o]).
Proof.
  intros Hb Ho. unfold disciplined. cbn [commits List.length].
  split; [ | split; [ lia | split ] ].
  - split; intros [y Hy]; [ | discriminate ].
    destruct o as [[tx | err] | v]; [ contradiction | | ]; subst r; discriminate.
  - intros tx w0 H0. rewrite Hb in H0. injection H0 as -> _. contradiction.
  - intros err w0 H0. rewrite Hb in H0. injection H0 as -> _. split; [ exact Ho | reflexivity ].
Qed.

Lemma panicked_disciplined (v : PanicValue) :
  ((exists project : Project.t, @Panicked (Project.t + error) v = Returned (inl project)) <->
   (exists tx' : store.Tx, commits [] = [(tx', Returned None)])).
Proof. split; intros [y Hy]; discriminate. Qed.

(** X20. Whatever the database answers, [PatchProject] keeps the
    discipline of a writing operation: it returns a project exactly when
    its one commit returned nil, it commits at most once, it rolls the
    transaction back as the last thing it does once the transaction is
    open, and it does nothing when the transaction does not open. *)
Theorem PatchProject_commits_only_on_success (patch : ProjectPatch.t) (w : W) :
  disciplined handle w (exec handle (PatchProject patch) w).
Proof.
  rewrite exec_PatchProject.
  destruct (handle BeginTx w) as [[[tx | err] | v] w1] eqn:Hb.
  - rewrite exec_patchProject.
    destruct (handle (QueryContext tx (updateProject patch) (snd (setOf patch))) w1)
      as [[[row | err] | v] w2].
    + pose proof (thenCommit_disciplined tx w2 (patched patch row) FormatError) as H.
      destruct (thenCommit handle tx w2 (patched patch row) FormatError) as [[r w3] tr].
      destruct H as (H1 & H2 & H3).
      now apply begun_disciplined with (w1 := w1).
    + pose proof (thenCommit_disciplined tx w2 (inr (FormatError err)) FormatError) as H.
      destruct (thenCommit handle tx w2 (inr (FormatError err)) FormatError) as [[r w3] tr].
      destruct H as (H1 & H2 & H3).
      now apply begun_disciplined with (w1 := w1).
    + apply begun_disciplined with (w1 := w1); try reflexivity; try assumption.
      * apply panicked_disciplined.
      * cbn. lia.
  - now apply (not_begun_disciplined _ Hb).
  - now apply (not_begun_disciplined _ Hb).
Qed.

(** X21. Whatever the database answers, [CreateProject] keeps the same
    discipline: a project is returned exactly when the one commit
    returned nil, there is at most one commit, the rollback comes last
    once the transaction is open, and nothing is done when the
    transaction does not open. *)
Theorem CreateProject_commits_only_on_success (create : ProjectCreate.t) (w : W) :
  disciplined handle w (exec handle (CreateProject errRowsClosed create) w).
Proof.
  rewrite exec_CreateProject.
  destruct (handle BeginTx w) as [[[tx | err] | v] w1] eqn:Hb.
  - rewrite exec_createProject.
    destruct (handle (QueryContext tx insertProject (insertArgs create)) w1)
      as [[[row | err] | v] w2].
    + pose proof (thenCommit_disciplined tx w2 (inserted errRowsClosed row) (fun e => e)) as H.
      destruct (thenCommit handle tx w2 (inserted errRowsClosed row) (fun e => e)) as [[r w3] tr].
      destruct H as (H1 & H2 & H3).
      now apply begun_disciplined with (w1 := w1).
    + pose proof (thenCommit_disciplined tx w2 (inr (FormatError err)) (fun e => e)) as H.
      destruct (thenCommit handle tx w2 (inr (FormatError err)) (fun e => e)) as [[r w3] tr].
      destruct H as (H1 & H2 & H3).
      now apply begun_disciplined with (w1 := w1).
    + apply begun_disciplined with (w1 := w1); try reflexivity; try assumption.
      * apply panicked_disciplined.
      * cbn. lia.
  - now apply (not_begun_disciplined _ Hb).
  - now apply (not_begun_disciplined _ Hb).
Qed.

(** X22. When the update returns no row, [PatchProject] returns the
    [ENOTFOUND] error that names the id of the patch, passed through
    [FormatError], whether or not the iteration ended with an error of
    its own; it closes the rows, does not commit, and rolls back. *)
Theorem PatchProject_without_row_is_not_found (patch : ProjectPatch.t) (w w1 w2 : W)
        (tx : store.Tx) (row : store.Rows) :
  handle BeginTx w = (Returned (inl tx), w1) ->
  handle (QueryContext tx (updateProject patch) (snd (setOf patch))) w1
  = (Returned (inl row), w2) ->
  store.scans row = [] ->
  exec handle (PatchProject patch) w
  = (Returned (inr (FormatError
                      (Error ENOTFOUND
                         ("project ID not found: " ++ itoa (ProjectPatch.ID patch))))),
     w2,
     [Called BeginTx (Returned (inl tx));
      Called (QueryContext tx (updateProject patch) (snd (setOf patch))) (Returned (inl row));
      Did store.rows_Close;
      Did (store.tx_Rollback tx)]).
Proof.
  intros Hb Hq Hs. rewrite exec_PatchProject, Hb, exec_patchProject, Hq.
  unfold patched. rewrite Hs. reflexivity.
Qed.

(** X23. When the update returns a row that scans, [PatchProject]
    commits, and returns the project of the first row if the commit
    returns nil and the commit's error (formatted) if not; further rows
    are not read. *)
Theorem PatchProject_returns_the_updated_row (patch : ProjectPatch.t) (w w1 w2 w3 : W)
        (tx : store.Tx) (row : store.Rows) (project : Project.t)
        (rest : list (Project.t + error)) (c : option error) :
  handle BeginTx w = (Returned (inl tx), w1) ->
  handle (QueryContext tx (updateProject patch) (snd (setOf patch))) w1
  = (Returned (inl row), w2) ->
  store.scans row = inl project :: rest ->
  handle (Commit tx) w2 = (Returned c, w3) ->
  exec handle (PatchProject patch) w
  = (Returned match c with
              | None => inl project
              | Some err => inr (FormatError err)
              end,
     w3,
     [Called BeginTx (Returned (inl tx));
      Called (QueryContext tx (updateProject patch) (snd (setOf patch))) (Returned (inl row));
      Did store.rows_Close;
      Called (Commit tx) (Returned c);
      Did (store.tx_Rollback tx)]).
Proof.
  intros Hb Hq Hs Hc. rewrite exec_PatchProject, Hb, exec_patchProject, Hq.
  unfold patched, thenCommit. rewrite Hs, Hc. destruct c; reflexivity.
Qed.

(** X24. [createProject] drops the result of [row.Next()]: when the
    insertion returns no row, [CreateProject] still scans, returns the
    error of that scan (the error that ended the iteration, or that of
    scanning closed rows), does not commit, and rolls back. *)
Theorem CreateProject_needs_a_returned_row (create : ProjectCreate.t) (w w1 w2 : W)
        (tx : store.Tx) (row : store.Rows) :
  handle BeginTx w = (Returned (inl tx), w1) ->
  handle (QueryContext tx insertProject (insertArgs create)) w1 = (Returned (inl row), w2) ->
  store.scans row = [] ->
  exec handle (CreateProject errRowsClosed create) w
  = (Returned (inr (FormatError match store.rowsErr row with
                                | Some err => err
                                | None => errRowsClosed
                                end)),
     w2,
     [Called BeginTx (Returned (inl tx));
      Called (QueryContext tx insertProject (insertArgs create)) (Returned (inl row));
      Did store.rows_Close;
      Did (store.tx_Rollback tx)]).
Proof.
  intros Hb Hq Hs. rewrite exec_CreateProject, Hb, exec_createProject, Hq.
  unfold inserted, nextThenScan. rewrite Hs. destruct (store.rowsErr row); reflexivity.
Qed.

(** X25. When the insertion returns a row that scans, [CreateProject]
    commits, and returns the project of that row if the commit returns
    nil and the commit's error (formatted) if not. *)
Theorem CreateProject_returns_the_inserted_row (create : ProjectCreate.t) (w w1 w2 w3 : W)
        (tx : store.Tx) (row : store.Rows) (project : Project.t)
        (rest : list (Project.t + error)) (c : option error) :
  handle BeginTx w = (Returned (inl tx), w1) ->
  handle (QueryContext tx insertProject (insertArgs create)) w1 = (Returned (inl row), w2) ->
  store.scans row = inl project :: rest ->
  handle (Commit tx) w2 = (Returned c, w3) ->
  exec handle (CreateProject errRowsClosed create) w
  = (Returned match c with
              | None => inl project
              | Some err => inr (FormatError err)
              end,
     w3,
     [Called BeginTx (Returned (inl tx));
      Called (QueryContext tx insertProject (insertArgs create)) (Returned (inl row));
      Did store.rows_Close;
      Called (Commit tx) (Returned c);
      Did (store.tx_Rollback tx)]).
Proof.
  intros Hb Hq Hs Hc. rewrite exec_CreateProject, Hb, exec_createProject, Hq.
  unfold inserted, nextThenScan, thenCommit. rewrite Hs, Hc. destruct c; reflexivity.
Qed.

End WriteMore.

(** An update that matches no project. *)
Lemma PatchProject_without_row_is_not_found_witness :
  fst (fst (exec (fixtures.writing fixtures.noRows None)
                 (projectservice.PatchProject fixtures.rename) tt))
  = Returned (inr (FormatError (Error ENOTFOUND "project ID not found: 1"))).
Proof.
  rewrite (@PatchProject_without_row_is_not_found
             sampleEnv _ (fixtures.writing fixtures.noRows None) fixtures.rename
             tt tt tt 1 fixtures.noRows eq_refl eq_refl eq_refl).
  reflexivity.
Defined.

(** An update of one project, committed. *)
Lemma PatchProject_returns_the_updated_row_witness :
  fst (fst (exec (fixtures.writing fixtures.oneRow None)
                 (projectservice.PatchProject fixtures.rename) tt))
  = Returned (inl (sample.project 1 "b")).
Proof.
  rewrite (@PatchProject_returns_the_updated_row
             sampleEnv _ (fixtures.writing fixtures.oneRow None) fixtures.rename
             tt tt tt tt 1 fixtures.oneRow (sample.project 1 "b") [] None
             eq_refl eq_refl eq_refl eq_refl).
  reflexivity.
Defined.

(** An insertion that returns no row and ends with an error. *)
Lemma CreateProject_needs_a_returned_row_witness :
  fst (fst (exec (fixtures.writing fixtures.noRows None)
                 (projectservice.CreateProject fixtures.rowsClosed fixtures.create) tt))
  = Returned (inr (FormatError sample.internal)).
Proof.
  rewrite (@CreateProject_needs_a_returned_row
             sampleEnv fixtures.rowsClosed _ (fixtures.writing fixtures.noRows None)
             fixtures.create tt tt tt 1 fixtures.noRows eq_refl eq_refl eq_refl).
  reflexivity.
Defined.

(** An insertion whose commit fails. *)
Lemma CreateProject_returns_the_inserted_row_witness :
  fst (fst (exec (fixtures.writing fixtures.oneRow (Some sample.internal))
                 (projectservice.CreateProject fixtures.rowsClosed fixtures.create) tt))
  = Returned (inr (FormatError sample.internal)).
Proof.
  rewrite (@CreateProject_returns_the_inserted_row
             sampleEnv fixtures.rowsClosed _
             (fixtures.writing fixtures.oneRow (Some sample.internal))
             fixtures.create tt tt tt tt 1 fixtures.oneRow (sample.project 1 "b") []
             (Some sample.internal) eq_refl eq_refl eq_refl eq_refl).
  reflexivity.
Defined.
